(** * Utils/DrawConstellations.py: the constellation overlay renderer

    A shallow embedding of [drawConstellations] (lines 21-39 of
    Utils/DrawConstellations.py) and of the command-line entry point
    (lines 42-81), together with the pieces of Python, NumPy, OpenCV and
    [os.path] that they go through, followed by the properties of the
    rendering pipeline and of the script.

    Conventions.
    - A Python/NumPy float is an IEEE 754 binary64 value, modelled by
      [spec_float] of the standard library with [prec = 53], [emax = 1024].
    - A Python call either returns or raises; it may also read the catalogue
      file and call the sky-to-pixel projector.  Both are recorded: a
      computation of type [Py A] is the list of events it performed plus its
      outcome.
    - Code that lives outside this file (NumPy's transcendental functions,
      the projector, the FF-file name parser, the Julian date conversion and
      OpenCV's rasteriser) is gathered in the class [Collaborators]. *)

From Stdlib Require Import ZArith Bool Ascii String List Lia.
From Stdlib Require Import Floats.SpecFloat.
From stdpp Require Import base option list strings gmap.

Local Open Scope string_scope.
Local Open Scope list_scope.
Local Open Scope Z_scope.

(** ** Binary64 floats *)

Module Float64.

Abbreviation float := spec_float.

Definition prec : Z := 53.
Definition emax : Z := 1024.

Definition mul : float -> float -> float := SFmul prec emax.
Definition add : float -> float -> float := SFadd prec emax.
Definition sub : float -> float -> float := SFsub prec emax.
Definition ltb : float -> float -> bool := SFltb.

Definition zero : float := S754_zero false.
Definition nan : float := S754_nan.

(** A float built from an integer that fits in 53 bits (exact). *)
Definition of_Z (z : Z) : float := binary_normalize prec emax z 0 false.

Definition is_finite (x : float) : bool :=
  match x with
  | S754_zero _ | S754_finite _ _ _ => true
  | S754_infinity _ | S754_nan => false
  end.

(** [math.pi / 180.0] and [180.0 / math.pi] as binary64 values
    (0x1.1df46a2529d39p-6 and 0x1.ca5dc1a63c1f8p+5). *)
Definition pi_over_180 : float := S754_finite false 5030569068109113 (-58).
Definition _180_over_pi : float := S754_finite false 8063664102031864 (-47).

(** Round half to even of [m * 2^e] for a positive mantissa. *)
Definition round_half_even_pos (m : positive) (e : Z) : Z :=
  match e with
  | Zneg p =>
      let d := Z.pow_pos 2 p in
      let q := Z.pos m / d in
      let r := Z.pos m mod d in
      match 2 * r ?= d with
      | Lt => q
      | Gt => q + 1
      | Eq => if Z.even q then q else q + 1
      end
  | _ => Z.pos m * 2 ^ e
  end.

End Float64.

Import Float64.

(** ** Python outcomes and the event log *)

(** The exceptions that [drawConstellations] can end with. *)
Inductive PyExc : Type :=
  | AttributeError      (* attribute access on None *)
  | ValueError          (* negative dimensions, NaN to int, ragged table *)
  | OverflowError       (* infinity to int *)
  | UnboundLocalError   (* a local read before any assignment *)
  | IndexError          (* index out of range or too many indices *)
  | OSError             (* the catalogue file cannot be opened *)
  | Cv2Error            (* OpenCV rejects an argument *)
  | FFNameError.        (* the FF file name cannot be parsed *)

Inductive outcome (A : Type) : Type :=
  | Returns (a : A)
  | Raises (e : PyExc).
Arguments Returns {A} a.
Arguments Raises {A} e.

(** What a call does to the outside world. *)
Inductive Event : Type :=
  | EvLoadtxt (path : string)
  | EvProject (ra dec : list float) (jd : float).

(** A computation: the events performed, in order, and how it ended. *)
Definition Py (A : Type) : Type := (list Event * outcome A)%type.

Definition py_ret {A} (a : A) : Py A := ([], Returns a).

Definition py_bind {A B} (m : Py A) (k : A -> Py B) : Py B :=
  match m with
  | (l, Returns a) => let '(l', r) := k a in (l ++ l', r)
  | (l, Raises e) => (l, Raises e)
  end.

Definition py_raise {A} (e : PyExc) : Py A := ([], Raises e).
Definition py_emit (ev : Event) : Py unit := ([ev], Returns tt).
Definition py_lift {A} (o : outcome A) : Py A := ([], o).

Definition events {A} (m : Py A) : list Event := fst m.
Definition result {A} (m : Py A) : outcome A := snd m.

(** The [x <- m; k] notation of stdpp's monad classes is used for [Py]. *)
#[global] Instance Py_ret : MRet Py := @py_ret.
#[global] Instance Py_bind : MBind Py := fun A B k m => py_bind m k.

#[global] Instance outcome_ret : MRet outcome := @Returns.
#[global] Instance outcome_bind : MBind outcome := fun A B k o =>
  match o with
  | Returns a => k a
  | Raises e => Raises e
  end.

(** ** [os.path] on POSIX paths *)

Module PosixPath.

Definition slash : ascii := "/"%char.

Definition is_slash (c : ascii) : bool := Ascii.eqb c slash.

Definition is_empty (s : string) : bool :=
  match s with EmptyString => true | _ => false end.

(** [p[:i], p[i:]] with [i = p.rfind('/') + 1]. *)
Fixpoint split_at_last_slash (p : string) : string * string :=
  match p with
  | EmptyString => (EmptyString, EmptyString)
  | String c r =>
      let '(h, t) := split_at_last_slash r in
      if is_empty h
      then if is_slash c then (String c EmptyString, r)
           else (EmptyString, String c r)
      else (String c h, t)
  end.

Fixpoint all_slashes (s : string) : bool :=
  match s with
  | EmptyString => true
  | String c r => is_slash c && all_slashes r
  end.

(** [s.rstrip('/')] *)
Fixpoint rstrip_slash (s : string) : string :=
  match s with
  | EmptyString => EmptyString
  | String c r =>
      let r' := rstrip_slash r in
      if is_empty r' && is_slash c then EmptyString else String c r'
  end.

Definition basename (p : string) : string := snd (split_at_last_slash p).

Definition dirname (p : string) : string :=
  let head := fst (split_at_last_slash p) in
  if negb (is_empty head) && negb (all_slashes head)
  then rstrip_slash head else head.

Fixpoint ends_with_slash (s : string) : bool :=
  match s with
  | EmptyString => false
  | String c EmptyString => is_slash c
  | String _ r => ends_with_slash r
  end.

Definition starts_with_slash (s : string) : bool :=
  match s with String c _ => is_slash c | EmptyString => false end.

(** [os.path.join(a, b)] for two components. *)
Definition join (a b : string) : string :=
  if starts_with_slash b then b
  else if is_empty a || ends_with_slash a then String.append a b
  else String.append a (String slash b).

End PosixPath.

(** ** Python built-ins *)

Module Python.

(** [int(round(x))] for a float [x] (Python 3: round half to even).
    [round] raises [ValueError] on NaN and [OverflowError] on an infinity;
    Python integers are unbounded. *)
Definition int_round (x : float) : outcome Z :=
  match x with
  | S754_nan => Raises ValueError
  | S754_infinity _ => Raises OverflowError
  | S754_zero _ => Returns 0
  | S754_finite s m e =>
      let n := round_half_even_pos m e in
      Returns (if s then - n else n)
  end.

(** [seq[i]] for an index taken from [range(...)]. *)
Definition index {A} (l : list A) (i : nat) : outcome A :=
  match l !! i with
  | Some x => Returns x
  | None => Raises IndexError
  end.

(** Truth value of an optional list argument: [None] and [[]] are false. *)
Definition truthy {A} (v : option (list A)) : bool :=
  match v with
  | None | Some [] => false
  | Some (_ :: _) => true
  end.

(** Reading a local variable that may never have been assigned. *)
Definition read_local {A} (v : option A) : outcome A :=
  match v with
  | Some x => Returns x
  | None => Raises UnboundLocalError
  end.

(** [obj.attr] where [obj] may be [None]. *)
Definition getattr {R A} (obj : option R) (attr : R -> A) : outcome A :=
  match obj with
  | Some r => Returns (attr r)
  | None => Raises AttributeError
  end.

End Python.

(** ** NumPy *)

Module Numpy.

Definition deg2rad (x : float) : float := Float64.mul x pi_over_180.
Definition rad2deg (x : float) : float := Float64.mul x _180_over_pi.

(** A [uint8] array of three dimensions, row major. *)
Abbreviation image := (list (list (list Z))).

Definition shape (img : image) : nat * nat * nat :=
  match img with
  | [] => (0, 0, 0)%nat
  | row :: _ =>
      (length img, length row,
       match row with [] => 0%nat | px :: _ => length px end)
  end.

(** Every row and every pixel has the announced length. *)
Definition has_shape (img : image) (rows cols chans : nat) : Prop :=
  length img = rows /\
  Forall (fun row =>
            length row = cols /\
            Forall (fun px => length px = chans) row) img.

(** [np.zeros((d0, d1, d2), dtype=np.uint8)] *)
Definition zeros (d0 d1 d2 : Z) : outcome image :=
  if (d0 <? 0) || (d1 <? 0) || (d2 <? 0) then Raises ValueError
  else Returns (replicate (Z.to_nat d0)
                  (replicate (Z.to_nat d1) (replicate (Z.to_nat d2) 0))).

(** [img[:, :, c] = v] *)
Definition set_channel (c : nat) (v : Z) (img : image) : image :=
  map (map (fun px => <[c := v]> px)) img.

(** The value of channel [c] at row [y], column [x]. *)
Definition channel (img : image) (y x c : nat) : option Z :=
  row ← img !! y; px ← row !! x; px !! c.

(** A float array of at most two dimensions. *)
Inductive ndarray : Type :=
  | Arr0 (x : float)
  | Arr1 (xs : list float)
  | Arr2 (rows : list (list float)).

(** The text of a delimited file after tokenising: one list of numeric
    fields per line. *)
Abbreviation table := (list (list float)).

Definition nonblank (r : list float) : bool :=
  match r with [] => false | _ => true end.

(** With the default [ndmin=0], [np.loadtxt] squeezes axes of length one. *)
Definition squeeze (rows : list (list float)) : ndarray :=
  match rows with
  | [] => Arr1 []
  | [[x]] => Arr0 x
  | [r] => Arr1 r
  | r0 :: _ =>
      match r0 with
      | [_] => Arr1 (flat_map (fun r => r) rows)
      | _ => Arr2 rows
      end
  end.

(** [np.loadtxt(path, delimiter=",")] on the files of the machine: blank
    lines are skipped, all rows must have the same number of fields. *)
Definition loadtxt (files : gmap string table) (path : string) : Py ndarray :=
  _ ← py_emit (EvLoadtxt path);
  match files !! path with
  | None => py_raise OSError
  | Some t =>
      let rows := List.filter nonblank t in
      match rows with
      | [] => py_ret (Arr1 [])
      | r0 :: rest =>
          if forallb (fun r => Nat.eqb (length r) (length r0)) rest
          then py_ret (squeeze rows)
          else py_raise ValueError
      end
  end.

(** [a[:, k]] *)
Definition column (a : ndarray) (k : nat) : outcome (list float) :=
  match a with
  | Arr2 rows => mapM (fun r => Python.index r k) rows
  | Arr1 _ | Arr0 _ => Raises IndexError
  end.

End Numpy.

Import Numpy.

(** ** OpenCV *)

Module Cv2.

(** A coordinate must fit a C [int]. *)
Definition in_int32 (z : Z) : bool := (- 2 ^ 31 <=? z) && (z <? 2 ^ 31).

(** [saturate_cast<uchar>] of a colour channel. *)
Definition saturate_u8 (c : Z) : Z := Z.max 0 (Z.min 255 c).

(** Writing one pixel; a position outside the image is clipped away. *)
Definition set_pixel (color : list Z) (img : image) (p : Z * Z) : image :=
  let '(x, y) := p in
  if (0 <=? x) && (0 <=? y)
  then alter (fun row =>
                if decide (Z.to_nat x < length row)%nat
                then <[Z.to_nat x := map saturate_u8 color]> row
                else row) (Z.to_nat y) img
  else img.

Definition paint (color : list Z) (img : image) (ps : list (Z * Z)) : image :=
  foldl (set_pixel color) img ps.

(** Rows and columns of an image. *)
Definition extent (img : image) : nat * nat :=
  (length img, match img with r :: _ => length r | [] => 0%nat end).

(** [cv2.line(img, pt1, pt2, color, thickness)]: the pixels of the segment
    are chosen by the rasteriser [raster], which is given the extent of the
    image; the image is updated in place. *)
Definition line (raster : nat * nat -> Z * Z -> Z * Z -> Z -> list (Z * Z))
    (img : image) (pt1 pt2 : Z * Z) (color : list Z) (thickness : Z)
    : outcome image :=
  if in_int32 (fst pt1) && in_int32 (snd pt1) &&
     in_int32 (fst pt2) && in_int32 (snd pt2)
  then
    Returns (paint color img (raster (extent img) pt1 pt2 thickness))
  else Raises Cv2Error.

End Cv2.

(** ** The data of the renderer *)

(** The fields of [RMS.Formats.Platepar.Platepar] that the renderer reads
    itself; the projector receives the whole record. *)
Record Platepar : Type := {
  X_res : Z;
  Y_res : Z;
  RA_d : float;
  dec_d : float;
  F_scale : float;
}.

(** The configuration object: [fps] is the configured frame rate,
    [frames_per_block] the number of frames of an FF file. *)
Record Config : Type := {
  fps : float;
  frames_per_block : Z;
}.

(** The result of [getMiddleTimeFF]:
    (year, month, day, hour, minute, second, millisecond). *)
Record FFTime : Type := {
  year : Z; month : Z; day : Z;
  hour : Z; minute : Z; second : Z; millisecond : Z;
}.

(** The machine the function runs on: where the module file is
    ([__file__]) and what the delimited text files contain. *)
Record World : Type := {
  module_file : string;
  files : gmap string table;
}.

(** The collaborators of the renderer. *)
Class Collaborators : Type := {
  np_sin : float -> float;
  np_cos : float -> float;
  np_arccos : float -> float;
  (** [RMS.Astrometry.ApplyAstrometry.raDecToXYPP(ra, dec, jd, platepar)] *)
  raDecToXYPP : list float -> list float -> float -> Platepar
                -> list float * list float;
  (** [RMS.Formats.FFfile.getMiddleTimeFF(name, fps, ff_frames=...)] *)
  getMiddleTimeFF : string -> Z -> Z -> outcome FFTime;
  (** [RMS.Astrometry.Conversions.date2JD], applied to the unpacked tuple *)
  date2JD : FFTime -> float;
  (** The pixels OpenCV picks for a segment of the given thickness. *)
  line_pixels : nat * nat -> Z * Z -> Z * Z -> Z -> list (Z * Z);
}.

(** ** The renderer *)

Section Renderer.

Context `{C : Collaborators}.

(** Modelled from the spec: [RMS.Math.angularSeparation] is not part of the
    sources at hand.  The spec gives the law of cosines
    [arccos(sin(dec1) sin(dec2) + cos(dec1) cos(dec2) cos(ra1 - ra2))],
    all angles in radians. *)
Definition angularSeparation (ra1 dec1 ra2 dec2 : float) : float :=
  np_arccos
    (Float64.add
       (Float64.mul (np_sin dec1) (np_sin dec2))
       (Float64.mul (Float64.mul (np_cos dec1) (np_cos dec2))
                    (np_cos (Float64.sub ra1 ra2)))).

(** Line 33: the separation, in degrees, between the pointing centre of
    the plate and one catalogue position. *)
Definition ang_sep_deg (platepar : Platepar) (ra dec : float) : float :=
  rad2deg (angularSeparation (deg2rad (RA_d platepar)) (deg2rad (dec_d platepar))
                             (deg2rad ra) (deg2rad dec)).

(** Line 33 on arrays: NumPy applies the expression element by element. *)
Definition ang_sep_array (platepar : Platepar) (from_ra from_dec : list float)
    : list float :=
  zip_with (ang_sep_deg platepar) from_ra from_dec.

(** Lines 26-27: [fps = 25] and
    [getMiddleTimeFF(os.path.basename(ff_file), fps,
                     ff_frames=config.frames_per_block)], whose tuple is
    unpacked into [date2JD]. *)
Definition fftime_jd (ff_file : string) (config : option Config) : outcome float :=
  let fps := 25 in
  let name := PosixPath.basename ff_file in
  ff_frames ← Python.getattr config frames_per_block;
  t ← getMiddleTimeFF name fps ff_frames;
  mret (date2JD t).

(** Line 28 *)
Definition constellations_path (w : World) : string :=
  PosixPath.join (PosixPath.dirname (module_file w))
                 "../share/constellation_lines.csv".

(** A call of the projector, recorded in the log. *)
Definition project (ra dec : list float) (jd : float) (platepar : Platepar)
    : Py (list float * list float) :=
  _ ← py_emit (EvProject ra dec jd);
  mret (raDecToXYPP ra dec jd platepar).

(** The arrays the loop of lines 35-37 reads. *)
Record Arrays : Type := {
  ang_sep : list float;
  from_x : list float;
  from_y : list float;
  to_x : list float;
  to_y : list float;
}.

(** Lines 36-37, one iteration.  The arguments of [cv2.line] are
    evaluated from left to right, the colour after the four coordinates. *)
Definition draw_segment (separation_deg : float) (color_bgr : option (list Z))
    (a : Arrays) (img : image) (i : nat) : outcome image :=
  s ← Python.index (ang_sep a) i;
  if Float64.ltb s separation_deg then
    fx ← Python.index (from_x a) i;
    x1 ← Python.int_round fx;
    fy ← Python.index (from_y a) i;
    y1 ← Python.int_round fy;
    tx ← Python.index (to_x a) i;
    x2 ← Python.int_round tx;
    ty ← Python.index (to_y a) i;
    y2 ← Python.int_round ty;
    color ← Python.read_local color_bgr;
    Cv2.line line_pixels img (x1, y1) (x2, y2) color 1
  else mret img.

(** Lines 35-37: [for i in range(len(to_x))]. *)
Fixpoint draw_from (separation_deg : float) (color_bgr : option (list Z))
    (a : Arrays) (img : image) (idx : list nat) : outcome image :=
  match idx with
  | [] => Returns img
  | i :: rest =>
      img' ← draw_segment separation_deg color_bgr a img i;
      draw_from separation_deg color_bgr a img' rest
  end.

Definition draw_loop (separation_deg : float) (color_bgr : option (list Z))
    (a : Arrays) (img : image) : outcome image :=
  draw_from separation_deg color_bgr a img (seq 0 (length (to_x a))).

(** Lines 28-31: the catalogue is read from the file next to the module
    and split into its four columns. *)
Definition load_lines (w : World)
    : Py (list float * list float * list float * list float) :=
  lines ← loadtxt (files w) (constellations_path w);
  from_ra ← py_lift (column lines 0);
  from_dec ← py_lift (column lines 1);
  to_ra ← py_lift (column lines 2);
  to_dec ← py_lift (column lines 3);
  mret (from_ra, from_dec, to_ra, to_dec).

(** Lines 22-23: the local [color_bgr] is assigned only when the argument
    [color_bgra] is false. *)
Definition local_color_bgr (color_bgra : option (list Z)) : option (list Z) :=
  if negb (Python.truthy color_bgra) then Some [255; 0; 0; 192] else None.

(** Lines 24-25 *)
Definition blank_canvas (platepar : Platepar) : outcome image :=
  img ← zeros (Y_res platepar) (X_res platepar) 4;
  mret (set_channel 3 0 img).

(** Lines 21-39. *)
Definition drawConstellations (w : World) (platepar : Platepar)
    (ff_file : string) (separation_deg : float)
    (color_bgra : option (list Z)) (config : option Config) : Py image :=
  let color_bgr := local_color_bgr color_bgra in
  img ← py_lift (blank_canvas platepar);
  jd ← py_lift (fftime_jd ff_file config);
  '(from_ra, from_dec, to_ra, to_dec) ← load_lines w;
  '(fx, fy) ← project from_ra from_dec jd platepar;
  let sep := ang_sep_array platepar from_ra from_dec in
  '(tx, ty) ← project to_ra to_dec jd platepar;
  py_lift (draw_loop separation_deg color_bgr
             {| ang_sep := sep; from_x := fx; from_y := fy;
                to_x := tx; to_y := ty |} img).

(** *** Vocabulary of the properties *)

(** Whether iteration [i] of the loop passes the test of line 36. *)
Definition passes_filter (separation_deg : float) (a : Arrays) (i : nat) : bool :=
  match ang_sep a !! i with
  | Some s => Float64.ltb s separation_deg
  | None => false
  end.

(** The same test read on the catalogue: the separation between the
    pointing centre and the "from" end of segment [i] is below the
    threshold. *)
Definition from_within (platepar : Platepar) (separation_deg : float)
    (from_ra from_dec : list float) (i : nat) : bool :=
  match from_ra !! i, from_dec !! i with
  | Some ra, Some dec =>
      Float64.ltb (ang_sep_deg platepar ra dec) separation_deg
  | _, _ => false
  end.

(** The rounded end points that line 37 hands to [cv2.line]. *)
Definition end_points_at (a : Arrays) (i : nat) : outcome ((Z * Z) * (Z * Z)) :=
  fx ← Python.index (from_x a) i;
  x1 ← Python.int_round fx;
  fy ← Python.index (from_y a) i;
  y1 ← Python.int_round fy;
  tx ← Python.index (to_x a) i;
  x2 ← Python.int_round tx;
  ty ← Python.index (to_y a) i;
  y2 ← Python.int_round ty;
  mret ((x1, y1), (x2, y2)).

(** Drawing a list of segments, one after the other, on a canvas. *)
Definition draw_lines (color : list Z) (img : image)
    (ls : list ((Z * Z) * (Z * Z))) : image :=
  foldl (fun im l =>
           Cv2.paint color im (line_pixels (Cv2.extent im) (fst l) (snd l) 1))
        img ls.

(** The arrays of a call, from the catalogue columns and the capture
    moment (lines 32-34). *)
Definition arrays_of (platepar : Platepar) (jd : float)
    (from_ra from_dec to_ra to_dec : list float) : Arrays :=
  {| ang_sep := ang_sep_array platepar from_ra from_dec;
     from_x := fst (raDecToXYPP from_ra from_dec jd platepar);
     from_y := snd (raDecToXYPP from_ra from_dec jd platepar);
     to_x := fst (raDecToXYPP to_ra to_dec jd platepar);
     to_y := snd (raDecToXYPP to_ra to_dec jd platepar) |}.

(** The default of the keyword argument [separation_deg]. *)
Definition default_separation_deg : float := of_Z 90.

End Renderer.

(** ** Synthetic collaborators

    Stand-ins for the external code, used to run the renderer on concrete
    inputs. *)

Module Synthetic.

(** The projection is the identity on (ra, dec) below 100 degrees of right
    ascension and undefined (NaN) from there on. *)
Definition project_point (ra dec : float) : float * float :=
  if Float64.ltb ra (of_Z 100) then (ra, dec) else (nan, nan).

Definition projector (ra dec : list float) (jd : float) (pp : Platepar)
    : list float * list float :=
  (zip_with (fun r d => fst (project_point r d)) ra dec,
   zip_with (fun r d => snd (project_point r d)) ra dec).

(** The middle of the exposure: half the block at the given frame rate,
    in milliseconds after midnight. *)
Definition middle_time (name : string) (fps frames : Z) : outcome FFTime :=
  if PosixPath.is_empty name then Raises FFNameError
  else Returns {| year := 2020; month := 1; day := 1; hour := 0; minute := 0;
                  second := 0; millisecond := 1000 * frames / (2 * fps) |}.

Definition julian (t : FFTime) : float := of_Z (2458849 + millisecond t).

(** Only the two end points of a segment are painted. *)
Definition end_points (extent : nat * nat) (p1 p2 : Z * Z) (thickness : Z)
    : list (Z * Z) := [p1; p2].

(** sin x = x, cos x = 0 and arccos x = |x|. *)
Definition collaborators : Collaborators := {|
  np_sin := fun x => x;
  np_cos := fun _ => zero;
  np_arccos := SFabs;
  raDecToXYPP := projector;
  getMiddleTimeFF := middle_time;
  date2JD := julian;
  line_pixels := end_points;
|}.

Definition platepar : Platepar := {|
  X_res := 8; Y_res := 6;
  RA_d := of_Z 0; dec_d := of_Z 90; F_scale := of_Z 1;
|}.

Definition config : Config := {| fps := of_Z 30; frames_per_block := 256 |}.

Definition catalog_path : string := "/opt/RMS/Utils/../share/constellation_lines.csv".

Definition world (t : table) : World := {|
  module_file := "/opt/RMS/Utils/DrawConstellations.py";
  files := {[ catalog_path := t ]};
|}.

Definition ff_file : string := "/data/FF_XX0001_20200101_000000_000_0000000.fits".

(** The capture moment of [ff_file] under [middle_time] and [julian]:
    256 frames at 25 frames per second. *)
Definition capture : float :=
  julian {| year := 2020; month := 1; day := 1; hour := 0; minute := 0;
            second := 0; millisecond := 5120 |}.

(** The blank canvas of [platepar]. *)
Definition canvas : image := replicate 6 (replicate 8 [0; 0; 0; 0]).

(** A configuration that differs from [config] in the frame rate only. *)
Definition config_25fps : Config := {| fps := of_Z 25; frames_per_block := 256 |}.

(** Two segments near the pointing centre of the synthetic sky. *)
Definition two_segments : table :=
  [ [of_Z 1; of_Z 2; of_Z 3; of_Z 4];
    [of_Z 5; of_Z 1; of_Z 2; of_Z 0] ].

(** The second segment ends where the projection is undefined. *)
Definition nan_to_endpoint : table :=
  [ [of_Z 1; of_Z 2; of_Z 3; of_Z 4];
    [of_Z 5; of_Z 1; of_Z 120; of_Z 0] ].

(** The second segment starts far from the pointing centre. *)
Definition far_segment : table :=
  [ [of_Z 1; of_Z 2; of_Z 3; of_Z 4];
    [of_Z 5; of_Z 80; of_Z 2; of_Z 0] ].

End Synthetic.

(** ** The command-line entry point

    Lines 42-81: the script reads a platepars file, picks the plate of the
    FF file, renders the overlay and writes it as an image. *)

Module Cli.

(** [c in chars] *)
Fixpoint in_chars (chars : string) (c : ascii) : bool :=
  match chars with
  | EmptyString => false
  | String d r => Ascii.eqb c d || in_chars r c
  end.

(** [s.rstrip(chars)]: the trailing characters that occur in [chars] are
    removed. *)
Fixpoint rstrip (chars s : string) : string :=
  match s with
  | EmptyString => EmptyString
  | String c r =>
      let r' := rstrip chars r in
      if PosixPath.is_empty r' && in_chars chars c then EmptyString
      else String c r'
  end.

(** The parsed command line (lines 49-57).  [config] takes one value
    ([nargs=1]), [dir_path] one or more ([nargs='+']). *)
Record Args : Type := {
  platepars_file : string;
  ff_file : string;
  output : option string;
  resolution : option string;
  config : option (list string);
  dir_path : list string;
}.

(** Lines 59-61 *)
Definition outfilename (a : Args) : string :=
  match output a with
  | Some name => name
  | None => String.append (rstrip ".fits" (ff_file a)) "_constellations.png"
  end.

(** The exceptions the script can end with. *)
Inductive Exc : Type :=
  | KeyError (key : string)   (* the platepars file has no entry for the key *)
  | TypeError                 (* subscripting something that is not a dict *)
  | Raised (e : PyExc)        (* an exception of the renderer's kind *)
  | Foreign (name : string).  (* any other exception of a collaborator *)

Inductive ended (A : Type) : Type :=
  | Done (a : A)
  | Failed (e : Exc).
Arguments Done {A} a.
Arguments Failed {A} e.

(** What the script does to the outside world: the calls it makes, with
    their arguments.  [Render] wraps an event of [drawConstellations]. *)
Inductive Action : Type :=
  | Open (path : string)
  | LoadConfig (config : option (list string)) (dir_path : list string)
  | Render (ev : Event)
  | Imwrite (path : string) (img : image)
  | Print (words : list string).

Definition Run (A : Type) : Type := (list Action * ended A)%type.

Definition run_ret {A} (a : A) : Run A := ([], Done a).

Definition run_bind {A B} (m : Run A) (k : A -> Run B) : Run B :=
  match m with
  | (l, Done a) => let '(l', r) := k a in (l ++ l', r)
  | (l, Failed e) => (l, Failed e)
  end.

Definition raise {A} (e : Exc) : Run A := ([], Failed e).
Definition emit (act : Action) : Run unit := ([act], Done tt).
Definition lift {A} (o : ended A) : Run A := ([], o).

Definition actions {A} (m : Run A) : list Action := fst m.
Definition ending {A} (m : Run A) : ended A := snd m.

#[global] Instance Run_ret : MRet Run := @run_ret.
#[global] Instance Run_bind : MBind Run := fun A B k m => run_bind m k.

#[global] Instance ended_ret : MRet ended := @Done.
#[global] Instance ended_bind : MBind ended := fun A B k o =>
  match o with
  | Done a => k a
  | Failed e => Failed e
  end.

(** What [json.load] makes of a file. *)
Inductive Document (V : Type) : Type :=
  | Malformed                  (* not a JSON text *)
  | Object (d : gmap string V) (* a JSON object, loaded as a dict *)
  | NotObject.                 (* an array, a string, a number, true, false, null *)
Arguments Malformed {V}.
Arguments Object {V} d.
Arguments NotObject {V}.

(** A [Platepar] object: the fields the renderer reads, the [refraction]
    flag and the rest of its attributes. *)
Record PlateparObject (R : Type) : Type := {
  fields : Platepar;
  refraction : bool;
  rest : R;
}.
Arguments fields {R} p.
Arguments refraction {R} p.
Arguments rest {R} p.

(** The code outside this file that the script calls. *)
Class Externals : Type := {
  (** A value of the platepars dictionary. *)
  JsonValue : Type;
  (** The attributes of a platepar object beside the ones above. *)
  Rest : Type;
  (** [int(s)] on a string: [None] when it raises [ValueError]. *)
  int_of_str : string -> option Z;
  (** [Platepar().loadFromDict(d)]: the object after the call. *)
  loadFromDict : JsonValue -> ended (PlateparObject Rest);
  (** [platepar.resetDistortionParameters()]: the object after the call. *)
  resetDistortionParameters : PlateparObject Rest -> ended (PlateparObject Rest);
  (** [RMS.ConfigReader.loadConfigFromDirectory(config, dir_path)] *)
  loadConfigFromDirectory : option (list string) -> list string -> ended Config;
  (** [cv2.imwrite(path, img)]: the flag it returns. *)
  imwrite : string -> image -> ended bool;
  (** The collaborators of the renderer; the projector is handed the whole
      platepar object. *)
  renderer_with : PlateparObject Rest -> Collaborators;
}.

Section Script.

Context `{E : Externals}.

(** The machine the script runs on: the machine of the renderer and the
    files that [json.load] can be given. *)
Record Machine : Type := {
  renderer_world : World;
  documents : gmap string (Document JsonValue);
}.

(** Lines 63-64: [open(path, 'r')] and [json.load(f)]. *)
Definition json_load (m : Machine) (path : string) : Run (Document JsonValue) :=
  _ ← emit (Open path);
  match documents m !! path with
  | None => raise (Raised OSError)
  | Some Malformed => raise (Raised ValueError)
  | Some doc => mret doc
  end.

(** [platepars[key]] for a string key. *)
Definition subscript (platepars : Document JsonValue) (key : string)
    : ended JsonValue :=
  match platepars with
  | Object d =>
      match d !! key with
      | Some v => Done v
      | None => Failed (KeyError key)
      end
  | _ => Failed TypeError
  end.

(** [int(s)] *)
Definition int (s : string) : ended Z :=
  match int_of_str s with
  | Some z => Done z
  | None => Failed (Raised ValueError)
  end.

(** The literal [0.5]. *)
Definition half : float := S754_finite false 4503599627370496 (-53).

Definition set_X_res (x : Z) (p : PlateparObject Rest) : PlateparObject Rest :=
  {| fields := {| X_res := x; Y_res := Y_res (fields p);
                  RA_d := RA_d (fields p); dec_d := dec_d (fields p);
                  F_scale := F_scale (fields p) |};
     refraction := refraction p; rest := rest p |}.

Definition set_Y_res (y : Z) (p : PlateparObject Rest) : PlateparObject Rest :=
  {| fields := {| X_res := X_res (fields p); Y_res := y;
                  RA_d := RA_d (fields p); dec_d := dec_d (fields p);
                  F_scale := F_scale (fields p) |};
     refraction := refraction p; rest := rest p |}.

Definition set_F_scale (f : float) (p : PlateparObject Rest) : PlateparObject Rest :=
  {| fields := {| X_res := X_res (fields p); Y_res := Y_res (fields p);
                  RA_d := RA_d (fields p); dec_d := dec_d (fields p);
                  F_scale := f |};
     refraction := refraction p; rest := rest p |}.

Definition set_refraction (b : bool) (p : PlateparObject Rest) : PlateparObject Rest :=
  {| fields := fields p; refraction := b; rest := rest p |}.

(** Lines 70-75 *)
Definition override_resolution (a : Args) (platepar : PlateparObject Rest)
    : ended (PlateparObject Rest) :=
  match resolution a with
  | Some r =>
      x ← int r;
      let platepar := set_X_res x platepar in
      y ← int r;
      let platepar := set_Y_res y platepar in
      let platepar :=
        set_F_scale (Float64.mul (F_scale (fields platepar)) half) platepar in
      let platepar := set_refraction false platepar in
      resetDistortionParameters platepar
  | None => Done platepar
  end.

(** Line 77 *)
Definition load_config (config : option (list string)) (dir_path : list string)
    : Run Config :=
  _ ← emit (LoadConfig config dir_path);
  lift (loadConfigFromDirectory config dir_path).

(** Line 78: [drawConstellations(platepar, ff_file, config=config)], with
    the defaults of [separation_deg] and [color_bgra]. *)
Definition rendering (m : Machine) (platepar : PlateparObject Rest)
    (ff_file : string) (config : Config) : Py image :=
  drawConstellations (C := renderer_with platepar) (renderer_world m)
    (fields platepar) ff_file default_separation_deg None (Some config).

Definition render (m : Machine) (platepar : PlateparObject Rest)
    (ff_file : string) (config : Config) : Run image :=
  let '(evs, r) := rendering m platepar ff_file config in
  (map Render evs,
   match r with
   | Returns img => Done img
   | Raises e => Failed (Raised e)
   end).

(** Line 80: the flag that [cv2.imwrite] returns is dropped. *)
Definition write (path : string) (img : image) : Run unit :=
  _ ← emit (Imwrite path img);
  _ ← lift (imwrite path img);
  mret tt.

(** Lines 59-81. *)
Definition main (m : Machine) (a : Args) : Run unit :=
  let out := outfilename a in
  platepars ← json_load m (platepars_file a);
  platepar_dict ← lift (subscript platepars (PosixPath.basename (ff_file a)));
  platepar ← lift (loadFromDict platepar_dict);
  platepar ← lift (override_resolution a platepar);
  config ← load_config (config a) (dir_path a);
  img ← render m platepar (ff_file a) config;
  _ ← write out img;
  emit (Print ["Wrote"; out]).

(** *** Vocabulary of the properties *)

(** [s] is not empty and its last character occurs in [chars]. *)
Fixpoint last_in (chars s : string) : bool :=
  match s with
  | EmptyString => false
  | String c EmptyString => in_chars chars c
  | String _ r => last_in chars r
  end.

(** The script got as far as rendering: the plate it rendered and the
    configuration it used. *)
Definition reaches_render (m : Machine) (a : Args)
    (platepar : PlateparObject Rest) (config : Config) : Prop :=
  exists d v obj,
    documents m !! platepars_file a = Some (Object d) /\
    d !! PosixPath.basename (ff_file a) = Some v /\
    loadFromDict v = Done obj /\
    override_resolution a obj = Done platepar /\
    loadConfigFromDirectory (Cli.config a) (dir_path a) = Done config.

End Script.

(** *** A synthetic command line *)

(** Decimal digits, with an optional minus sign. *)
Fixpoint digits (acc : Z) (s : string) : option Z :=
  match s with
  | EmptyString => Some acc
  | String c r =>
      let n := Z.of_nat (nat_of_ascii c) - 48 in
      if (0 <=? n) && (n <=? 9) then digits (10 * acc + n) r else None
  end.

Definition decimal (s : string) : option Z :=
  match s with
  | EmptyString => None
  | String "-" (String c r) => z ← digits 0 (String c r); Some (- z)
  | _ => digits 0 s
  end.

(** Stand-ins: a dictionary value is the record of fields itself, resetting
    the distortion changes nothing the renderer reads, the configuration is
    the synthetic one, and images cannot be written below [/readonly]. *)
Definition externals : Externals := {|
  JsonValue := Platepar;
  Rest := unit;
  int_of_str := decimal;
  loadFromDict := fun v => Done {| fields := v; refraction := true; rest := tt |};
  resetDistortionParameters := fun p => Done p;
  loadConfigFromDirectory := fun _ _ => Done Synthetic.config;
  imwrite := fun path _ => Done (negb (String.prefix "/readonly/" path));
  renderer_with := fun _ => Synthetic.collaborators;
|}.

Definition ff_name : string := "FF_XX0001_20200101_000000_000_0000000.fits".

(** The platepars file: one plate, under the name of the FF file. *)
Definition platepars : gmap string Platepar :=
  {[ ff_name := Synthetic.platepar ]}.

Definition machine : Machine (E := externals) := {|
  renderer_world := Synthetic.world Synthetic.two_segments;
  documents := {[ "/data/platepars_all_recalibrated.json" := Object platepars;
                  "/data/list.json" := NotObject;
                  "/data/broken.json" := Malformed ]};
|}.

Definition args : Args := {|
  platepars_file := "/data/platepars_all_recalibrated.json";
  ff_file := Synthetic.ff_file;
  output := None;
  resolution := None;
  config := None;
  dir_path := ["/data"];
|}.

(** The same command line with [-o]: an output below [/readonly]. *)
Definition args_readonly : Args := {|
  platepars_file := "/data/platepars_all_recalibrated.json";
  ff_file := Synthetic.ff_file;
  output := Some "/readonly/overlay.png";
  resolution := None;
  config := None;
  dir_path := ["/data"];
|}.

(** An FF file the platepars file does not know. *)
Definition args_unknown : Args := {|
  platepars_file := "/data/platepars_all_recalibrated.json";
  ff_file := "/data/FF_XX0001_20200101_010000_000_0000000.fits";
  output := None;
  resolution := None;
  config := None;
  dir_path := ["/data"];
|}.

(** A platepars file that holds a JSON array. *)
Definition args_list : Args := {|
  platepars_file := "/data/list.json";
  ff_file := Synthetic.ff_file;
  output := None;
  resolution := None;
  config := None;
  dir_path := ["/data"];
|}.

(** The command line with [-r]. *)
Definition args_resolution (r : string) : Args := {|
  platepars_file := "/data/platepars_all_recalibrated.json";
  ff_file := Synthetic.ff_file;
  output := None;
  resolution := Some r;
  config := None;
  dir_path := ["/data"];
|}.

(** An FF file whose stem ends in a character of ".fits". *)
Definition args_test : Args := {|
  platepars_file := "/data/platepars_all_recalibrated.json";
  ff_file := "FF_test.fits";
  output := None;
  resolution := None;
  config := None;
  dir_path := ["/data"];
|}.

(** The synthetic plate at resolution 4. *)
Definition platepar_4 : PlateparObject unit := {|
  fields := {| X_res := 4; Y_res := 4; RA_d := of_Z 0; dec_d := of_Z 90;
               F_scale := Float64.mul (of_Z 1) half |};
  refraction := false;
  rest := tt;
|}.

(** The overlay of [Synthetic.two_segments] on a canvas of the given size. *)
Definition overlay (rows cols : nat) : image :=
  draw_lines (C := Synthetic.collaborators) [255; 0; 0; 192]
    (replicate rows (replicate cols [0; 0; 0; 0]))
    [((1, 2), (3, 4)); ((5, 1), (2, 0))].

End Cli.

(** ** Vocabulary of the further properties *)

(** A pixel of the overlay: transparent black or the default colour. *)
Definition overlay_pixel (px : list Z) : Prop :=
  px = [0; 0; 0; 0] \/ px = [255; 0; 0; 192].

(** The machine [w] with the table [t] in place of the catalogue file. *)
Definition with_catalog (w : World) (t : table) : World :=
  {| module_file := module_file w;
     files := <[constellations_path w := t]> (files w) |}.

(** A name without directory part. *)
Fixpoint no_slash (s : string) : bool :=
  match s with
  | EmptyString => true
  | String c r => negb (PosixPath.is_slash c) && no_slash r
  end.

(** [d + "/" + name] *)
Definition in_directory (d name : string) : string :=
  String.append d (String PosixPath.slash name).

(** The pixel at row [y], column [x]. *)
Definition pixel (img : image) (y x : nat) : option (list Z) :=
  row ← img !! y; row !! x.

(** The pixel (x, y) lies on the raster of one of the segments [ls]. *)
Definition on_segments `{C : Collaborators} (extent : nat * nat)
    (ls : list ((Z * Z) * (Z * Z))) (y x : nat) : Prop :=
  Exists (fun l => (Z.of_nat x, Z.of_nat y)
                   ∈ line_pixels extent (fst l) (snd l) 1) ls.

(** [x <= y] on floats, false when either side is NaN. *)
Definition float_leb : float -> float -> bool := SFleb.

(** The first of the coordinates that is not finite. *)
Definition first_nonfinite (xs : list float) : option float :=
  List.find (fun x => negb (is_finite x)) xs.

(** Field [k] of a catalogue row. *)
Definition field (k : nat) (r : list float) : float := nth k r nan.

(** What iteration [i] of the loop hands to [cv2.line]: nothing when the
    segment fails the test of line 36, its rounded end points otherwise. *)
Definition segment_at (separation_deg : float) (color_bgr : option (list Z))
    (a : Arrays) (i : nat) : outcome (option ((Z * Z) * (Z * Z))) :=
  s ← Python.index (ang_sep a) i;
  if Float64.ltb s separation_deg then
    l ← end_points_at a i;
    _ ← Python.read_local color_bgr;
    if Cv2.in_int32 (fst (fst l)) && Cv2.in_int32 (snd (fst l)) &&
       Cv2.in_int32 (fst (snd l)) && Cv2.in_int32 (snd (snd l))
    then Returns (Some l) else Raises Cv2Error
  else Returns None.

(** The same, from the five values the iteration reads. *)
Definition segment_of_values (separation_deg : float)
    (color_bgr : option (list Z)) (s fx fy tx ty : float)
    : outcome (option ((Z * Z) * (Z * Z))) :=
  if Float64.ltb s separation_deg then
    x1 ← Python.int_round fx;
    y1 ← Python.int_round fy;
    x2 ← Python.int_round tx;
    y2 ← Python.int_round ty;
    _ ← Python.read_local color_bgr;
    if Cv2.in_int32 x1 && Cv2.in_int32 y1 && Cv2.in_int32 x2 && Cv2.in_int32 y2
    then Returns (Some ((x1, y1), (x2, y2))) else Raises Cv2Error
  else Returns None.

(** The segment of a catalogue row, for a projector that works point by
    point. *)
Definition row_segment `{C : Collaborators}
    (point : float -> float -> float -> Platepar -> float * float)
    (platepar : Platepar) (jd : float) (separation_deg : float)
    (color_bgr : option (list Z)) (r : list float)
    : outcome (option ((Z * Z) * (Z * Z))) :=
  segment_of_values separation_deg color_bgr
    (ang_sep_deg platepar (field 0 r) (field 1 r))
    (fst (point (field 0 r) (field 1 r) jd platepar))
    (snd (point (field 0 r) (field 1 r) jd platepar))
    (fst (point (field 2 r) (field 3 r) jd platepar))
    (snd (point (field 2 r) (field 3 r) jd platepar)).

(** The colour that reaches [cv2.line]. *)
Definition line_color (color_bgr : option (list Z)) : list Z :=
  default [] color_bgr.

(** The rows of [Synthetic.two_segments] in the other order. *)
Definition two_segments_swapped : table :=
  [ [of_Z 5; of_Z 1; of_Z 2; of_Z 0];
    [of_Z 1; of_Z 2; of_Z 3; of_Z 4] ].

(** The synthetic machine without its catalogue file. *)
Definition no_catalog : World :=
  {| module_file := "/opt/RMS/Utils/DrawConstellations.py";
     files := (∅ : gmap string table) |}.

(** A machine whose module file is given by its bare name. *)
Definition bare_module : World :=
  {| module_file := "DrawConstellations.py";
     files := (∅ : gmap string table) |}.

(** A catalogue whose second row is short. *)
Definition ragged : table :=
  [ [of_Z 1; of_Z 2; of_Z 3; of_Z 4]; [of_Z 5; of_Z 1] ].

(** A catalogue with a fifth field in every row. *)
Definition five_fields : table :=
  [ [of_Z 1; of_Z 2; of_Z 3; of_Z 4; of_Z 7];
    [of_Z 5; of_Z 1; of_Z 2; of_Z 0; of_Z 8] ].

(** A plate of negative width. *)
Definition negative_width : Platepar :=
  {| X_res := -1; Y_res := 6; RA_d := of_Z 0; dec_d := of_Z 90;
     F_scale := of_Z 1 |}.

(** * Properties *)

(** ** Floats *)


(** A value that is not below zero is not below either zero. *)
Lemma not_below_zero_any (x : float) (s : bool) :
  Float64.ltb x zero = false -> Float64.ltb x (S754_zero s) = false.
Proof. destruct x as [| | |[]]; simpl; intros H; try reflexivity; exact H. Qed.

(** Rounding keeps the sign it is given, or yields NaN. *)
Lemma binary_round_aux_not_below_zero (mx ex : Z) lx :
  Float64.ltb (binary_round_aux prec emax false mx ex lx) zero = false.
Proof.
  unfold binary_round_aux.
  destruct (shr_fexp prec emax mx ex lx) as [mrs' e'].
  destruct (shr_fexp prec emax _ e' loc_Exact) as [mrs'' e''].
  destruct (shr_m mrs''); try reflexivity.
  destruct (Z.leb e'' (emax - prec)); reflexivity.
Qed.

(** Multiplying by a positive constant keeps a value from going below zero. *)
Lemma mul_pos_not_below_zero (x : float) (m : positive) (e : Z) :
  Float64.ltb x zero = false ->
  Float64.ltb (Float64.mul x (S754_finite false m e)) zero = false.
Proof.
  destruct x as [s | s | | s mx ex]; simpl; intros H; try reflexivity.
  - destruct s; [discriminate | reflexivity].
  - destruct s; [discriminate |].
    apply binary_round_aux_not_below_zero.
Qed.

Lemma rad2deg_not_below_zero (x : float) :
  Float64.ltb x zero = false -> Float64.ltb (rad2deg x) zero = false.
Proof. apply mul_pos_not_below_zero. Qed.


(** ** Lists *)

Lemma filter_none {A} (f : A -> bool) (l : list A) :
  (forall x, f x = false) -> List.filter f l = [].
Proof.
  intros H. induction l as [| x l IH]; simpl; [done |]. by rewrite H.
Qed.

(** ** Outcomes and logs *)

Lemma outcome_bind_returns {A B} (o : outcome A) (k : A -> outcome B) (b : B) :
  o ≫= k = Returns b -> exists a, o = Returns a /\ k a = Returns b.
Proof. destruct o as [a | e]; simpl; [eauto | discriminate]. Qed.

Lemma py_lift_bind {A B} (o : outcome A) (k : A -> Py B) :
  py_lift o ≫= k = match o with Returns a => k a | Raises e => ([], Raises e) end.
Proof. destruct o as [a | e]; simpl; [by destruct (k a) | done]. Qed.

Lemma py_bind_events {A B} (m : Py A) (k : A -> Py B) :
  events (m ≫= k) =
  events m ++ match result m with Returns a => events (k a) | Raises _ => [] end.
Proof.
  destruct m as [l [a | e]]; unfold events, result; simpl.
  - by destruct (k a).
  - by rewrite app_nil_r.
Qed.

Lemma py_lift_events {A B} (o : outcome A) (k : A -> Py B) :
  (forall a, events (k a) = []) -> events (py_lift o ≫= k) = [].
Proof. intros H. rewrite py_lift_bind. destruct o; [apply H | done]. Qed.

(** ** Images *)

Lemma zeros_has_shape (d0 d1 d2 : Z) (img : image) :
  zeros d0 d1 d2 = Returns img ->
  has_shape img (Z.to_nat d0) (Z.to_nat d1) (Z.to_nat d2).
Proof.
  unfold zeros. destruct (_ || _); [discriminate |].
  intros [= <-]. split; [apply length_replicate |].
  apply Forall_replicate. split; [apply length_replicate |].
  apply Forall_replicate, length_replicate.
Qed.

Lemma set_channel_has_shape (c : nat) (v : Z) (img : image) (rows cols chans : nat) :
  has_shape img rows cols chans -> has_shape (set_channel c v img) rows cols chans.
Proof.
  intros [Hlen Hrows]. unfold set_channel. split; [by rewrite length_map |].
  apply Forall_map.
  eapply Forall_impl; [exact Hrows |].
  intros row [Hrow Hpx]. simpl. split; [by rewrite length_map |].
  apply Forall_map. eapply Forall_impl; [exact Hpx |].
  intros px Hl. simpl. by rewrite length_insert.
Qed.

Lemma set_pixel_has_shape (color : list Z) (img : image) (p : Z * Z)
    (rows cols chans : nat) :
  length color = chans ->
  has_shape img rows cols chans ->
  has_shape (Cv2.set_pixel color img p) rows cols chans.
Proof.
  intros Hc [Hlen Hrows]. destruct p as [x y]. unfold Cv2.set_pixel.
  destruct (_ && _); [| by split].
  split; [by rewrite length_alter |].
  apply Forall_alter; [exact Hrows |].
  intros row _ [Hrow Hpx]. case_decide; [| by split].
  split; [by rewrite length_insert |].
  apply Forall_insert; [exact Hpx |]. by rewrite length_map.
Qed.

Lemma paint_has_shape (color : list Z) (ps : list (Z * Z)) (img : image)
    (rows cols chans : nat) :
  length color = chans ->
  has_shape img rows cols chans ->
  has_shape (Cv2.paint color img ps) rows cols chans.
Proof.
  intros Hc. unfold Cv2.paint. revert img.
  induction ps as [| p ps IH]; intros img H; simpl; [exact H |].
  apply IH. by apply set_pixel_has_shape.
Qed.

(** The alpha channel of a fresh canvas is zero everywhere. *)
Lemma zeros_channel (d0 d1 d2 : Z) (img : image) (y x c : nat) :
  zeros d0 d1 d2 = Returns img ->
  (y < Z.to_nat d0)%nat -> (x < Z.to_nat d1)%nat -> (c < Z.to_nat d2)%nat ->
  channel (set_channel c 0 img) y x c = Some 0.
Proof.
  unfold zeros. destruct (_ || _); [discriminate |].
  intros [= <-] Hy Hx Hc. unfold channel, set_channel.
  rewrite list_lookup_fmap, lookup_replicate_2 by done. simpl.
  rewrite list_lookup_fmap, lookup_replicate_2 by done. simpl.
  apply list_lookup_insert_eq. by rewrite length_replicate.
Qed.

(** ** The loop of lines 35-37 *)

Section Loop.

Context `{C : Collaborators}.

Ltac inv_bind H :=
  let x := fresh "x" in
  let E := fresh "E" in
  apply outcome_bind_returns in H as (x & E & H).

Ltac run_binds :=
  repeat match goal with
         | E : ?t = Returns _ |- context [?t] => rewrite E; simpl
         end.

Lemma index_returns {A} (l : list A) (i : nat) (x : A) :
  Python.index l i = Returns x <-> l !! i = Some x.
Proof. unfold Python.index. destruct (l !! i); split; congruence. Qed.

Lemma int_round_returns (x : float) (z : Z) :
  Python.int_round x = Returns z -> is_finite x = true.
Proof. destruct x; simpl; congruence. Qed.

(** A segment that fails the test of line 36 leaves the canvas alone,
    whatever its coordinates. *)
Lemma draw_segment_skip sep col a img i s :
  ang_sep a !! i = Some s -> Float64.ltb s sep = false ->
  draw_segment sep col a img i = Returns img.
Proof.
  intros Hs Hlt. unfold draw_segment.
  apply index_returns in Hs. rewrite Hs. simpl. by rewrite Hlt.
Qed.

(** What a successful iteration did. *)
Lemma draw_segment_returns sep col a img i img' :
  draw_segment sep col a img i = Returns img' ->
  if passes_filter sep a i
  then exists color l,
         col = Some color /\ end_points_at a i = Returns l /\
         img' = Cv2.paint color img
                  (line_pixels (Cv2.extent img) (fst l) (snd l) 1)
  else img' = img.
Proof.
  unfold draw_segment, passes_filter, end_points_at. intros H.
  inv_bind H. apply index_returns in E. rewrite E.
  destruct (Float64.ltb x sep); [| by injection H].
  do 8 inv_bind H. inv_bind H.
  run_binds.
  destruct col as [color |]; [| discriminate]. injection E8 as <-.
  unfold Cv2.line in H. destruct (_ && _); [| discriminate].
  injection H as <-. by exists color, ((x1, x3), (x5, x7)).
Qed.

(** A segment that passes the test and has a non-finite coordinate makes
    the iteration raise, before anything is drawn. *)
Lemma draw_segment_nonfinite sep col a img i s fx fy tx ty :
  ang_sep a !! i = Some s -> Float64.ltb s sep = true ->
  from_x a !! i = Some fx -> from_y a !! i = Some fy ->
  to_x a !! i = Some tx -> to_y a !! i = Some ty ->
  is_finite fx && is_finite fy && is_finite tx && is_finite ty = false ->
  exists e, draw_segment sep col a img i = Raises e /\
            (e = ValueError \/ e = OverflowError).
Proof.
  intros Hs Hlt Hfx Hfy Htx Hty Hfin.
  unfold draw_segment, Python.index.
  rewrite Hs. simpl. rewrite Hlt, Hfx. simpl.
  destruct fx; simpl; eauto; rewrite Hfy; simpl;
    (destruct fy; simpl; eauto; rewrite Htx; simpl;
     (destruct tx; simpl; eauto; rewrite Hty; simpl;
      (destruct ty; simpl; eauto; discriminate))).
Qed.

(** A segment that passes the test is handed to [cv2.line] with its
    rounded end points, the colour being read after them. *)
Lemma draw_segment_passes sep col a img i s :
  ang_sep a !! i = Some s -> Float64.ltb s sep = true ->
  draw_segment sep col a img i
  = (l ← end_points_at a i;
     color ← Python.read_local col;
     Cv2.line line_pixels img (fst l) (snd l) color 1).
Proof.
  intros Hs Hlt. unfold draw_segment, end_points_at.
  apply index_returns in Hs. rewrite Hs. simpl. rewrite Hlt.
  destruct (Python.index (from_x a) i) as [fx |]; simpl; [| done].
  destruct (Python.int_round fx); simpl; [| done].
  destruct (Python.index (from_y a) i) as [fy |]; simpl; [| done].
  destruct (Python.int_round fy); simpl; [| done].
  destruct (Python.index (to_x a) i) as [tx |]; simpl; [| done].
  destruct (Python.int_round tx); simpl; [| done].
  destruct (Python.index (to_y a) i) as [ty |]; simpl; [| done].
  by destruct (Python.int_round ty).
Qed.

(** The coordinates are converted in the order from_x, from_y, to_x, to_y:
    the first that is not finite decides the exception, [ValueError] for
    NaN and [OverflowError] for an infinity, whatever the colour. *)
Lemma draw_segment_first_nonfinite sep col a img i s fx fy tx ty x :
  ang_sep a !! i = Some s -> Float64.ltb s sep = true ->
  from_x a !! i = Some fx -> from_y a !! i = Some fy ->
  to_x a !! i = Some tx -> to_y a !! i = Some ty ->
  first_nonfinite [fx; fy; tx; ty] = Some x ->
  draw_segment sep col a img i
  = Raises match x with S754_nan => ValueError | _ => OverflowError end.
Proof.
  intros Hs Hlt Hfx Hfy Htx Hty Hx.
  unfold draw_segment, Python.index.
  rewrite Hs. simpl. rewrite Hlt, Hfx. simpl.
  unfold first_nonfinite in Hx.
  destruct fx; simpl in Hx |- *; try (by injection Hx as <-);
    rewrite Hfy; simpl;
    (destruct fy; simpl in Hx |- *; try (by injection Hx as <-);
     rewrite Htx; simpl;
     (destruct tx; simpl in Hx |- *; try (by injection Hx as <-);
      rewrite Hty; simpl;
      (destruct ty; simpl in Hx |- *; try (by injection Hx as <-);
       discriminate))).
Qed.

(** The loop over two runs of indices. *)
Lemma draw_from_app sep col a img idx1 idx2 :
  draw_from sep col a img (idx1 ++ idx2)
  = (img1 ← draw_from sep col a img idx1; draw_from sep col a img1 idx2).
Proof.
  revert img. induction idx1 as [| i idx1 IH]; intros img; simpl; [done |].
  destruct (draw_segment sep col a img i) as [img1 | e]; simpl; [| done].
  apply IH.
Qed.



(** With a colour at hand, a loop that returns drew exactly the segments
    that pass the test, in the order of the indices. *)
Lemma draw_from_returns sep color a idx img img' :
  draw_from sep (Some color) a img idx = Returns img' ->
  exists ls,
    mapM (end_points_at a) (List.filter (passes_filter sep a) idx) = Returns ls /\
    img' = draw_lines color img ls.
Proof.
  revert img. induction idx as [| i idx IH]; intros img H; simpl in H.
  - injection H as <-. by exists [].
  - inv_bind H. apply draw_segment_returns in E.
    destruct (IH _ H) as (ls & Hls & ->). simpl.
    destruct (passes_filter sep a i).
    + destruct E as (c & l & [= <-] & Hl & ->).
      exists (l :: ls). split; [| done].
      simpl. rewrite Hl. simpl. by rewrite Hls.
    + subst x. by exists ls.
Qed.

(** Without a colour, a loop that returns met no segment that passes. *)
Lemma draw_from_unbound sep a idx img img' :
  draw_from sep None a img idx = Returns img' ->
  List.filter (passes_filter sep a) idx = [] /\ img' = img.
Proof.
  revert img. induction idx as [| i idx IH]; intros img H; simpl in H.
  - by injection H as <-.
  - inv_bind H. apply draw_segment_returns in E. simpl.
    destruct (passes_filter sep a i).
    + by destruct E as (c & l & [=] & _).
    + subst x. by apply IH.
Qed.

(** One raising iteration makes the whole loop raise. *)
Lemma draw_from_raises sep col a idx img i :
  In i idx ->
  (forall im, exists e, draw_segment sep col a im i = Raises e) ->
  exists e, draw_from sep col a img idx = Raises e.
Proof.
  revert img. induction idx as [| j idx IH]; intros img Hin Hr; [done |].
  simpl. destruct (draw_segment sep col a img j) as [img1 | e] eqn:E; simpl;
    [| by eauto].
  destruct Hin as [-> | Hin].
  - destruct (Hr img) as [e He]. congruence.
  - by apply IH.
Qed.

End Loop.

(** ** The whole call *)

Section Call.

Context `{C : Collaborators}.

(** The catalogue file is opened exactly once by lines 28-31, whether or
    not they succeed. *)
Lemma load_lines_events (w : World) :
  events (load_lines w) = [EvLoadtxt (constellations_path w)].
Proof.
  unfold load_lines. rewrite py_bind_events.
  assert (events (loadtxt (files w) (constellations_path w))
          = [EvLoadtxt (constellations_path w)]) as ->.
  { unfold loadtxt. rewrite py_bind_events. simpl.
    destruct (files w !! constellations_path w) as [t |]; [| done].
    destruct (List.filter nonblank t) as [| r0 rest]; [done |].
    by destruct (forallb _ rest). }
  destruct (result _) as [lines | e]; [| done].
  rewrite py_lift_events; [done |].
  intros from_ra. apply py_lift_events.
  intros from_dec. apply py_lift_events.
  intros to_ra. apply py_lift_events. done.
Qed.

(** The call, step by step. *)
Lemma drawConstellations_eq w pp ff sep col cfg :
  drawConstellations w pp ff sep col cfg =
  match blank_canvas pp with
  | Raises e => ([], Raises e)
  | Returns img =>
      match fftime_jd ff cfg with
      | Raises e => ([], Raises e)
      | Returns jd =>
          match result (load_lines w) with
          | Raises e => ([EvLoadtxt (constellations_path w)], Raises e)
          | Returns (from_ra, from_dec, to_ra, to_dec) =>
              ([EvLoadtxt (constellations_path w);
                EvProject from_ra from_dec jd;
                EvProject to_ra to_dec jd],
               draw_loop sep (local_color_bgr col)
                 (arrays_of pp jd from_ra from_dec to_ra to_dec) img)
          end
      end
  end.
Proof.
  unfold drawConstellations.
  rewrite py_lift_bind. destruct (blank_canvas pp) as [img | e]; [| done].
  rewrite py_lift_bind. destruct (fftime_jd ff cfg) as [jd | e]; [| done].
  pose proof (load_lines_events w) as Hev.
  destruct (load_lines w) as [l [[[[from_ra from_dec] to_ra] to_dec] | e]];
    unfold events, result in *; simpl in *; subst l; [| done].
  unfold arrays_of.
  destruct (raDecToXYPP from_ra from_dec jd pp) as [fx fy].
  destruct (raDecToXYPP to_ra to_dec jd pp) as [tx ty]. done.
Qed.

End Call.

(** ** The claims about the renderer *)

Section Claims.

Context `{C : Collaborators}.

(** The test of line 36 reads only the pointing centre and the "from"
    columns of the catalogue. *)
Lemma passes_filter_from_within pp sep jd from_ra from_dec to_ra to_dec i :
  passes_filter sep (arrays_of pp jd from_ra from_dec to_ra to_dec) i
  = from_within pp sep from_ra from_dec i.
Proof.
  unfold passes_filter, from_within, arrays_of, ang_sep_array. simpl.
  rewrite lookup_zip_with.
  destruct (from_ra !! i); simpl; [| done]. by destruct (from_dec !! i).
Qed.

(** No separation is below zero when arccos has its usual range. *)
Lemma from_within_zero pp from_ra from_dec i (s : bool) :
  (forall x, Float64.ltb (np_arccos x) zero = false) ->
  from_within pp (S754_zero s) from_ra from_dec i = false.
Proof.
  intros Hacos. unfold from_within.
  destruct (from_ra !! i) as [ra |]; [| done].
  destruct (from_dec !! i) as [dec |]; [| done].
  apply not_below_zero_any, rad2deg_not_below_zero, Hacos.
Qed.

Lemma draw_lines_has_shape color ls img rows cols chans :
  length color = chans ->
  has_shape img rows cols chans ->
  has_shape (draw_lines color img ls) rows cols chans.
Proof.
  intros Hc. unfold draw_lines. revert img.
  induction ls as [| l ls IH]; intros img H; simpl; [done |].
  apply IH. by apply paint_has_shape.
Qed.

Lemma has_shape_shape (img : image) rows cols chans :
  has_shape img rows cols chans -> (0 < rows)%nat -> (0 < cols)%nat ->
  shape img = (rows, cols, chans).
Proof.
  intros [Hlen Hrows] Hr Hc. destruct img as [| row img]; simpl in *; [lia |].
  apply Forall_cons in Hrows as [[Hrow Hpx] _].
  destruct row as [| px row]; simpl in *; [lia |].
  apply Forall_cons in Hpx as [Hpx _]. by rewrite Hlen, Hrow, Hpx.
Qed.

Lemma blank_canvas_has_shape pp img :
  blank_canvas pp = Returns img ->
  has_shape img (Z.to_nat (Y_res pp)) (Z.to_nat (X_res pp)) 4.
Proof.
  unfold blank_canvas. intros H.
  apply outcome_bind_returns in H as (img0 & Hz & [= <-]).
  apply set_channel_has_shape. by apply zeros_has_shape in Hz.
Qed.

(** What a call that returns went through. *)
Lemma drawConstellations_returns w pp ff sep col cfg img' :
  result (drawConstellations w pp ff sep col cfg) = Returns img' ->
  exists img0 jd from_ra from_dec to_ra to_dec,
    blank_canvas pp = Returns img0 /\
    fftime_jd ff cfg = Returns jd /\
    result (load_lines w) = Returns (from_ra, from_dec, to_ra, to_dec) /\
    draw_loop sep (local_color_bgr col)
      (arrays_of pp jd from_ra from_dec to_ra to_dec) img0 = Returns img'.
Proof.
  rewrite drawConstellations_eq.
  destruct (blank_canvas pp) as [img0 | e]; [| discriminate].
  destruct (fftime_jd ff cfg) as [jd | e]; [| discriminate].
  destruct (result (load_lines w))
    as [[[[from_ra from_dec] to_ra] to_dec] | e]; [| discriminate].
  unfold result. simpl. intros H.
  by exists img0, jd, from_ra, from_dec, to_ra, to_dec.
Qed.

(** C1 (amended): nothing in the loop looks at whether a projected
    coordinate is finite.  A segment that fails the separation test is
    skipped, whatever its coordinates.  When segment [i] passes the test and
    one of its four projected coordinates is NaN or infinite, its iteration
    raises at the first such coordinate [x], in the order from_x, from_y,
    to_x, to_y: [ValueError] when [x] is NaN, [OverflowError] when it is an
    infinity, whatever the colour.  The call then returns no canvas: it ends
    with an exception, and with this one, after the catalogue read and the
    two projections, when the iterations before [i] have all gone
    through. *)
Theorem C1_nonfinite_coordinate_raises w pp ff sep col cfg
    img0 jd from_ra from_dec to_ra to_dec i s fx fy tx ty x :
  blank_canvas pp = Returns img0 ->
  fftime_jd ff cfg = Returns jd ->
  result (load_lines w) = Returns (from_ra, from_dec, to_ra, to_dec) ->
  let a := arrays_of pp jd from_ra from_dec to_ra to_dec in
  (i < length (to_x a))%nat ->
  ang_sep a !! i = Some s ->
  from_x a !! i = Some fx -> from_y a !! i = Some fy ->
  to_x a !! i = Some tx -> to_y a !! i = Some ty ->
  first_nonfinite [fx; fy; tx; ty] = Some x ->
  let e := match x with S754_nan => ValueError | _ => OverflowError end in
  (x = S754_nan \/ exists sign, x = S754_infinity sign) /\
  (Float64.ltb s sep = true ->
   (forall img, draw_segment sep (local_color_bgr col) a img i = Raises e) /\
   (exists e', result (drawConstellations w pp ff sep col cfg) = Raises e') /\
   (forall img_i,
      draw_from sep (local_color_bgr col) a img0 (seq 0 i) = Returns img_i ->
      drawConstellations w pp ff sep col cfg
      = ([EvLoadtxt (constellations_path w);
          EvProject from_ra from_dec jd;
          EvProject to_ra to_dec jd], Raises e))) /\
  (Float64.ltb s sep = false ->
   forall img, draw_segment sep (local_color_bgr col) a img i = Returns img).
Proof.
  intros Hc Hjd Hl a Hi Hs Hfx Hfy Htx Hty Hx e.
  split; [| split].
  - unfold first_nonfinite in Hx. apply List.find_some in Hx as [_ Hx].
    destruct x; simpl in Hx; try discriminate; eauto.
  - intros Hlt.
    assert (forall img,
              draw_segment sep (local_color_bgr col) a img i = Raises e) as Hseg.
    { intros img. by eapply draw_segment_first_nonfinite. }
    split; [exact Hseg |]. split.
    + rewrite drawConstellations_eq, Hc, Hjd, Hl. unfold result. simpl.
      apply draw_from_raises with (i := i).
      * apply in_seq. subst a. simpl in Hi |- *. lia.
      * intros im. rewrite Hseg. eauto.
    + intros img_i Hbefore.
      rewrite drawConstellations_eq, Hc, Hjd, Hl. f_equal.
      unfold draw_loop. fold a.
      replace (length (to_x a)) with (i + S (length (to_x a) - S i))%nat by lia.
      rewrite seq_app, draw_from_app, Hbefore. simpl. by rewrite Hseg.
  - intros Hlt img. by eapply draw_segment_skip.
Qed.

(** A colour supplied by the caller is never used: the call can only
    return when no segment passes the test, and the canvas is then blank. *)
Lemma supplied_color_never_drawn w pp ff sep c cs cfg img' :
  result (drawConstellations w pp ff sep (Some (c :: cs)) cfg) = Returns img' ->
  blank_canvas pp = Returns img'.
Proof.
  intros H. apply drawConstellations_returns in H
    as (img0 & jd & from_ra & from_dec & to_ra & to_dec & Hc & _ & _ & H).
  unfold draw_loop, local_color_bgr in H. simpl in H.
  by apply draw_from_unbound in H as [_ ->].
Qed.

(** C4: when the catalogue file holds no row, [np.loadtxt] hands back a
    one-dimensional empty array and the column slice [lines[:, 0]] of
    line 30 raises [IndexError]: the call does not return a canvas. *)
Theorem C4_empty_catalog_raises w pp ff sep col cfg t img0 jd :
  files w !! constellations_path w = Some t ->
  List.filter nonblank t = [] ->
  blank_canvas pp = Returns img0 ->
  fftime_jd ff cfg = Returns jd ->
  drawConstellations w pp ff sep col cfg
  = ([EvLoadtxt (constellations_path w)], Raises IndexError).
Proof.
  intros Hfile Hempty Hc Hjd.
  rewrite drawConstellations_eq, Hc, Hjd.
  assert (result (load_lines w) = Raises IndexError) as ->; [| done].
  unfold load_lines, loadtxt. rewrite Hfile, Hempty. reflexivity.
Qed.

(** A catalogue of a single row fares no better: the array is squeezed
    to one dimension. *)
Lemma single_row_catalog_raises w pp ff sep col cfg r img0 jd :
  files w !! constellations_path w = Some [r] ->
  blank_canvas pp = Returns img0 ->
  fftime_jd ff cfg = Returns jd ->
  result (drawConstellations w pp ff sep col cfg) = Raises IndexError.
Proof.
  intros Hfile Hc Hjd.
  rewrite drawConstellations_eq, Hc, Hjd.
  assert (result (load_lines w) = Raises IndexError) as ->; [| done].
  unfold load_lines, loadtxt. rewrite Hfile.
  destruct r as [| x [| y r]]; reflexivity.
Qed.


(** C6: for a plate of positive resolution the canvas of lines 24-25 has
    shape (Y_res, X_res, 4) and alpha zero at every pixel, and every canvas
    the call returns has that shape. *)
Theorem C6_canvas_shape pp :
  0 < X_res pp -> 0 < Y_res pp ->
  (exists img0,
     blank_canvas pp = Returns img0 /\
     has_shape img0 (Z.to_nat (Y_res pp)) (Z.to_nat (X_res pp)) 4 /\
     shape img0 = (Z.to_nat (Y_res pp), Z.to_nat (X_res pp), 4%nat) /\
     forall y x, (y < Z.to_nat (Y_res pp))%nat -> (x < Z.to_nat (X_res pp))%nat ->
                 channel img0 y x 3 = Some 0) /\
  (forall w ff sep col cfg img,
     result (drawConstellations w pp ff sep col cfg) = Returns img ->
     has_shape img (Z.to_nat (Y_res pp)) (Z.to_nat (X_res pp)) 4 /\
     shape img = (Z.to_nat (Y_res pp), Z.to_nat (X_res pp), 4%nat)).
Proof.
  intros HX HY. split.
  - destruct (zeros (Y_res pp) (X_res pp) 4) as [z | e] eqn:Hz.
    + exists (set_channel 3 0 z).
      assert (blank_canvas pp = Returns (set_channel 3 0 z)) as Hb
        by (unfold blank_canvas; by rewrite Hz).
      pose proof (blank_canvas_has_shape _ _ Hb) as Hs.
      split; [done |]. split; [done |]. split.
      * apply has_shape_shape; [done | lia | lia].
      * intros y x Hy Hx. eapply zeros_channel; [exact Hz | done | done |].
        simpl. lia.
    + unfold zeros in Hz.
      destruct (Y_res pp <? 0) eqn:E1; [lia |].
      destruct (X_res pp <? 0) eqn:E2; [lia |]. discriminate.
  - intros w ff sep col cfg img H.
    apply drawConstellations_returns in H
      as (img0 & jd & from_ra & from_dec & to_ra & to_dec & Hc & _ & _ & H).
    apply blank_canvas_has_shape in Hc.
    assert (has_shape img (Z.to_nat (Y_res pp)) (Z.to_nat (X_res pp)) 4) as Hs.
    { unfold draw_loop, local_color_bgr in H.
      destruct (negb (Python.truthy col)).
      - apply draw_from_returns in H as (ls & _ & ->).
        by apply draw_lines_has_shape.
      - by apply draw_from_unbound in H as [_ ->]. }
    split; [done |]. apply has_shape_shape; [done | lia | lia].
Qed.


(** C8 (amended): the catalogue is not an argument of the call.  Every
    call that gets past the canvas and the capture moment opens the file
    [../share/constellation_lines.csv] next to the module itself, exactly
    once; the only other events of the call are projections. *)
Theorem C8_catalog_read_by_every_call w pp ff sep col cfg img0 jd :
  blank_canvas pp = Returns img0 ->
  fftime_jd ff cfg = Returns jd ->
  exists projections,
    events (drawConstellations w pp ff sep col cfg)
    = EvLoadtxt (constellations_path w) :: projections /\
    Forall (fun ev => exists ra dec jd', ev = EvProject ra dec jd') projections.
Proof.
  intros Hc Hjd. rewrite drawConstellations_eq, Hc, Hjd.
  destruct (result (load_lines w))
    as [[[[from_ra from_dec] to_ra] to_dec] | e].
  - eexists. split; [reflexivity |]. repeat constructor; eauto.
  - exists []. by split.
Qed.

(** C9: a call with [config = None] never returns: reading
    [config.frames_per_block] on line 27 raises [AttributeError] (or the
    canvas allocation has failed before that), and nothing has been read or
    projected.  So every call that returns had a configuration. *)
Theorem C9_config_required w pp ff sep col :
  (exists e, drawConstellations w pp ff sep col None = ([], Raises e) /\
             (0 <= X_res pp -> 0 <= Y_res pp -> e = AttributeError)) /\
  (forall cfg img,
     result (drawConstellations w pp ff sep col cfg) = Returns img ->
     exists c, cfg = Some c).
Proof.
  split.
  - rewrite drawConstellations_eq. unfold blank_canvas, zeros.
    destruct (Y_res pp <? 0) eqn:E1; simpl.
    + exists ValueError. split; [done | lia].
    + destruct (X_res pp <? 0) eqn:E2; simpl.
      * exists ValueError. split; [done | lia].
      * by exists AttributeError.
  - intros cfg img H.
    apply drawConstellations_returns in H
      as (img0 & jd & from_ra & from_dec & to_ra & to_dec & _ & Hjd & _).
    destruct cfg as [c |]; [by exists c | discriminate].
Qed.

(** C10: the capture moment is computed with the frame rate 25, whatever
    frame rate the configuration holds: two configurations that differ
    only in [fps] give the same capture moment and the same call. *)
Theorem C10_frame_rate_fixed_at_25 w pp ff sep col c1 c2 :
  frames_per_block c1 = frames_per_block c2 ->
  fftime_jd ff (Some c1)
  = (t ← getMiddleTimeFF (PosixPath.basename ff) 25 (frames_per_block c1);
     mret (date2JD t)) /\
  fftime_jd ff (Some c1) = fftime_jd ff (Some c2) /\
  drawConstellations w pp ff sep col (Some c1)
  = drawConstellations w pp ff sep col (Some c2).
Proof.
  intros Hfpb.
  assert (fftime_jd ff (Some c1) = fftime_jd ff (Some c2)) as H
    by (unfold fftime_jd; simpl; by rewrite Hfpb).
  split; [done |]. split; [exact H |].
  by rewrite !drawConstellations_eq, H.
Qed.

End Claims.

(** ** Runs on the synthetic sky *)

Section Runs.

Import Synthetic.

#[local] Existing Instance collaborators.


(** C1, on a run: the second segment starts near the pointing centre and
    ends where the projector answers NaN; the first segment is drawn, the
    second raises [ValueError], and so does the call. *)
Lemma C1_witness_nan_to_endpoint :
  (forall img,
     draw_segment default_separation_deg (local_color_bgr None)
       (arrays_of platepar capture
          [of_Z 1; of_Z 5] [of_Z 2; of_Z 1] [of_Z 3; of_Z 120] [of_Z 4; of_Z 0])
       img 1 = Raises ValueError) /\
  drawConstellations (world nan_to_endpoint) platepar ff_file
    default_separation_deg None (Some config)
  = ([EvLoadtxt (constellations_path (world nan_to_endpoint));
      EvProject [of_Z 1; of_Z 5] [of_Z 2; of_Z 1] capture;
      EvProject [of_Z 3; of_Z 120] [of_Z 4; of_Z 0] capture],
     Raises ValueError).
Proof.
  destruct (C1_nonfinite_coordinate_raises (C := collaborators)
              (world nan_to_endpoint) platepar ff_file
              default_separation_deg None (Some config)
              canvas capture
              [of_Z 1; of_Z 5] [of_Z 2; of_Z 1] [of_Z 3; of_Z 120]
              [of_Z 4; of_Z 0]
              1%nat (ang_sep_deg platepar (of_Z 5) (of_Z 1))
              (of_Z 5) (of_Z 1) nan nan nan
              eq_refl eq_refl eq_refl
              ltac:(vm_compute; lia) eq_refl eq_refl eq_refl eq_refl eq_refl
              eq_refl) as (_ & H & _).
  destruct (H ltac:(vm_compute; reflexivity)) as (H1 & _ & H3).
  split; [exact H1 |].
  apply (H3 (draw_lines (C := collaborators) [255; 0; 0; 192] canvas
               [((1, 2), (3, 4))])).
  vm_compute. reflexivity.
Defined.

(** C1 as first stated fails on this run: the "from" end of the second
    segment passes the separation test, its "to" end projects to NaN, and
    the call raises [ValueError] instead of skipping the segment. *)
Lemma C1_counterexample_nan_to_endpoint :
  from_within platepar default_separation_deg
    [of_Z 1; of_Z 5] [of_Z 2; of_Z 1] 1 = true /\
  fst (raDecToXYPP [of_Z 3; of_Z 120] [of_Z 4; of_Z 0] capture platepar) !! 1%nat
    = Some nan /\
  result (drawConstellations (world nan_to_endpoint) platepar ff_file
            default_separation_deg None (Some config))
  = Raises ValueError.
Proof. repeat split; vm_compute; reflexivity. Qed.

(** With a threshold of zero the canvas comes back blank. *)
Example zero_threshold_blank :
  result (drawConstellations (world two_segments) platepar ff_file
            zero None (Some config)) = Returns canvas.
Proof. vm_compute. reflexivity. Qed.

(** C3: a colour supplied by the caller makes the call raise
    [UnboundLocalError] at the first segment that passes the test, where
    the same call without a colour returns a canvas. *)
Theorem C3_supplied_color_raises :
  result (drawConstellations (world two_segments) platepar ff_file
            default_separation_deg (Some [0; 255; 0; 255]) (Some config))
  = Raises UnboundLocalError /\
  exists img,
    result (drawConstellations (world two_segments) platepar ff_file
              default_separation_deg None (Some config))
    = Returns img.
Proof. split; [| eexists]; vm_compute; reflexivity. Qed.

(** C4, on a run: an empty catalogue file. *)
Lemma C4_witness_empty_file :
  files (world []) !! constellations_path (world []) = Some [] /\
  drawConstellations (world []) platepar ff_file
    default_separation_deg None (Some config)
  = ([EvLoadtxt (constellations_path (world []))], Raises IndexError).
Proof.
  split; [vm_compute; reflexivity |].
  exact (C4_empty_catalog_raises (C := collaborators) (world []) platepar ff_file
           default_separation_deg None (Some config) [] canvas capture
           ltac:(vm_compute; reflexivity) eq_refl eq_refl eq_refl).
Defined.



(** C6, on a run: a plate of 8 by 6 pixels. *)
Lemma C6_witness_8_by_6 :
  0 < X_res platepar /\ 0 < Y_res platepar /\
  has_shape canvas 6 8 4 /\
  forall img,
    result (drawConstellations (world two_segments) platepar ff_file
              default_separation_deg None (Some config)) = Returns img ->
    has_shape img 6 8 4 /\ shape img = (6, 8, 4)%nat.
Proof.
  split; [reflexivity |]. split; [reflexivity |].
  pose proof (C6_canvas_shape platepar eq_refl eq_refl) as [H1 H2].
  split.
  - destruct H1 as (img0 & Hb & Hs & _). by injection Hb as <-.
  - intros img H. exact (H2 _ _ _ _ _ _ H).
Defined.


(** C8 as first stated fails on these runs: the call opens the catalogue
    file itself, and two calls with the same arguments return different
    canvases when the file differs. *)
Lemma C8_counterexample_reads_file :
  In (EvLoadtxt catalog_path)
     (events (drawConstellations (world two_segments) platepar ff_file
                default_separation_deg None (Some config))) /\
  result (drawConstellations (world two_segments) platepar ff_file
            default_separation_deg None (Some config))
  <> result (drawConstellations (world far_segment) platepar ff_file
               default_separation_deg None (Some config)).
Proof.
  split; [left; vm_compute; reflexivity |].
  vm_compute. discriminate.
Qed.

(** C8, on a run. *)
Lemma C8_witness_one_read :
  exists projections,
    events (drawConstellations (world two_segments) platepar ff_file
              default_separation_deg None (Some config))
    = EvLoadtxt (constellations_path (world two_segments)) :: projections /\
    Forall (fun ev => exists ra dec jd', ev = EvProject ra dec jd') projections.
Proof.
  exact (C8_catalog_read_by_every_call (world two_segments) platepar ff_file
           default_separation_deg None (Some config) canvas capture
           eq_refl eq_refl).
Defined.

(** C9, on a run: the call that returns was given a configuration, and
    the same call without one raises [AttributeError]. *)
Lemma C9_witness_config_given :
  drawConstellations (world two_segments) platepar ff_file
    default_separation_deg None None = ([], Raises AttributeError) /\
  exists c, Some config = Some c.
Proof.
  split; [vm_compute; reflexivity |].
  exact (proj2 (C9_config_required (C := collaborators) (world two_segments) platepar ff_file
                  default_separation_deg None)
           (Some config)
           (draw_lines (C := collaborators) [255; 0; 0; 192] canvas
              [((1, 2), (3, 4)); ((5, 1), (2, 0))])
           ltac:(vm_compute; reflexivity)).
Defined.

(** C10, on a run: configurations of 30 and of 25 frames per second. *)
Lemma C10_witness_30_and_25_fps :
  frames_per_block config = frames_per_block config_25fps /\
  fps config <> fps config_25fps /\
  fftime_jd ff_file (Some config) = Returns capture /\
  fftime_jd ff_file (Some config) = fftime_jd ff_file (Some config_25fps) /\
  drawConstellations (world two_segments) platepar ff_file
    default_separation_deg None (Some config)
  = drawConstellations (world two_segments) platepar ff_file
      default_separation_deg None (Some config_25fps).
Proof.
  split; [reflexivity |]. split; [vm_compute; discriminate |].
  split; [vm_compute; reflexivity |].
  exact (proj2 (C10_frame_rate_fixed_at_25 (world two_segments) platepar
                  ff_file default_separation_deg None config config_25fps
                  eq_refl)).
Defined.

End Runs.


(** ** Further properties of the renderer *)

Section Renderer_more.

Context `{C : Collaborators}.

Lemma set_pixel_Forall (P : list Z -> Prop) (color : list Z) (img : image)
    (p : Z * Z) :
  P (map Cv2.saturate_u8 color) ->
  Forall (Forall P) img -> Forall (Forall P) (Cv2.set_pixel color img p).
Proof.
  intros Hc H. destruct p as [x y]. unfold Cv2.set_pixel.
  destruct (_ && _); [| done].
  apply Forall_alter; [done |]. intros row _ Hrow.
  case_decide; [| done]. by apply Forall_insert.
Qed.

Lemma paint_Forall (P : list Z -> Prop) (color : list Z) (ps : list (Z * Z))
    (img : image) :
  P (map Cv2.saturate_u8 color) ->
  Forall (Forall P) img -> Forall (Forall P) (Cv2.paint color img ps).
Proof.
  intros Hc. unfold Cv2.paint. revert img.
  induction ps as [| p ps IH]; intros img H; simpl; [done |].
  apply IH. by apply set_pixel_Forall.
Qed.

Lemma draw_lines_Forall (P : list Z -> Prop) (color : list Z) ls (img : image) :
  P (map Cv2.saturate_u8 color) ->
  Forall (Forall P) img -> Forall (Forall P) (draw_lines color img ls).
Proof.
  intros Hc. unfold draw_lines. revert img.
  induction ls as [| l ls IH]; intros img H; simpl; [done |].
  apply IH. by apply paint_Forall.
Qed.

Lemma blank_canvas_transparent pp img :
  blank_canvas pp = Returns img -> Forall (Forall (eq [0; 0; 0; 0])) img.
Proof.
  unfold blank_canvas, zeros. destruct (_ || _); [discriminate |].
  simpl. intros [= <-]. unfold set_channel.
  apply Forall_map, Forall_replicate. simpl.
  apply Forall_map, Forall_replicate. reflexivity.
Qed.

(** X1: every pixel of a canvas the call returns is either transparent
    black or the default colour [255, 0, 0, 192]: pixels no segment touches
    keep alpha 0, and no other colour ever appears, whatever colour the
    caller passes. *)
Theorem X1_returned_canvas_has_two_colours w pp ff sep col cfg img :
  result (drawConstellations w pp ff sep col cfg) = Returns img ->
  Forall (Forall overlay_pixel) img.
Proof.
  intros H. apply drawConstellations_returns in H
    as (img0 & jd & from_ra & from_dec & to_ra & to_dec & Hc & _ & _ & H).
  apply blank_canvas_transparent in Hc.
  assert (Forall (Forall overlay_pixel) img0) as H0.
  { eapply Forall_impl; [exact Hc |]. intros row Hrow.
    eapply Forall_impl; [exact Hrow |]. intros px <-. by left. }
  unfold draw_loop, local_color_bgr in H.
  destruct (negb (Python.truthy col)).
  - apply draw_from_returns in H as (ls & _ & ->).
    apply draw_lines_Forall; [by right | done].
  - by apply draw_from_unbound in H as [_ ->].
Qed.

(** X2: a call that returns has opened the catalogue once and then called
    the projector exactly twice, first on the "from" columns and then on the
    "to" columns, both times with the capture moment of the FF file. *)
Theorem X2_two_projections_same_moment w pp ff sep col cfg img :
  result (drawConstellations w pp ff sep col cfg) = Returns img ->
  exists jd from_ra from_dec to_ra to_dec,
    fftime_jd ff cfg = Returns jd /\
    result (load_lines w) = Returns (from_ra, from_dec, to_ra, to_dec) /\
    events (drawConstellations w pp ff sep col cfg)
    = [EvLoadtxt (constellations_path w);
       EvProject from_ra from_dec jd;
       EvProject to_ra to_dec jd].
Proof.
  rewrite drawConstellations_eq.
  destruct (blank_canvas pp) as [img0 | e]; [| discriminate].
  destruct (fftime_jd ff cfg) as [jd | e]; [| discriminate].
  destruct (result (load_lines w))
    as [[[[from_ra from_dec] to_ra] to_dec] | e]; [| discriminate].
  intros _. by exists jd, from_ra, from_dec, to_ra, to_dec.
Qed.

(** X3: when the catalogue file does not exist the call raises [OSError]
    after the canvas and the capture moment, and the projector is never
    called; a file whose rows differ in length raises [ValueError] at the
    same point. *)
Theorem X3_unreadable_catalog w pp ff sep col cfg img0 jd :
  blank_canvas pp = Returns img0 ->
  fftime_jd ff cfg = Returns jd ->
  (files w !! constellations_path w = None ->
   drawConstellations w pp ff sep col cfg
   = ([EvLoadtxt (constellations_path w)], Raises OSError)) /\
  (forall t r0 rest,
     files w !! constellations_path w = Some t ->
     List.filter nonblank t = r0 :: rest ->
     forallb (fun r => Nat.eqb (length r) (length r0)) rest = false ->
     drawConstellations w pp ff sep col cfg
     = ([EvLoadtxt (constellations_path w)], Raises ValueError)).
Proof.
  intros Hc Hjd. split.
  - intros Hf. rewrite drawConstellations_eq, Hc, Hjd.
    assert (result (load_lines w) = Raises OSError) as ->; [| done].
    unfold load_lines, loadtxt. by rewrite Hf.
  - intros t r0 rest Hf Hrows Hragged.
    rewrite drawConstellations_eq, Hc, Hjd.
    assert (result (load_lines w) = Raises ValueError) as ->; [| done].
    unfold load_lines, loadtxt. rewrite Hf, Hrows, Hragged. done.
Qed.

(** X4: a negative resolution makes the call raise [ValueError] before
    anything else happens: the configuration is not looked at, no file is
    read and nothing is projected. *)
Theorem X4_negative_resolution w pp ff sep col cfg :
  X_res pp < 0 \/ Y_res pp < 0 ->
  drawConstellations w pp ff sep col cfg = ([], Raises ValueError).
Proof.
  intros H. rewrite drawConstellations_eq. unfold blank_canvas, zeros.
  destruct (Y_res pp <? 0) eqn:E1; [done |].
  destruct (X_res pp <? 0) eqn:E2; [done |]. lia.
Qed.

(** *** Columns beyond the fourth *)

Lemma filter_nonblank_id (t : table) (n : nat) :
  (0 < n)%nat -> Forall (fun r => length r = n) t -> List.filter nonblank t = t.
Proof.
  intros Hn. induction 1 as [| r t Hr _ IH]; simpl; [done |].
  destruct r; simpl in *; [lia |]. by rewrite IH.
Qed.

Lemma forallb_same_length (t : table) (n m : nat) :
  n = m -> Forall (fun r => length r = n) t ->
  forallb (fun r => Nat.eqb (length r) m) t = true.
Proof.
  intros <-. induction 1 as [| r t Hr _ IH]; simpl; [done |].
  rewrite IH, andb_true_r. by apply Nat.eqb_eq.
Qed.

Lemma py_bind_pair {A B} (l : list Event) (a : A) (k : A -> Py B) :
  (l, Returns a) ≫= k = (l ++ fst (k a), snd (k a)).
Proof. simpl. by destruct (k a). Qed.

Lemma column_take (rows : table) (k n : nat) :
  (k < n)%nat ->
  mapM (fun r => Python.index r k) (map (take n) rows)
  = mapM (fun r => Python.index r k) rows.
Proof.
  intros Hk.
  assert (forall r : list float,
            Python.index (take n r) k = Python.index r k) as Hix.
  { intros r. unfold Python.index. by rewrite lookup_take_lt. }
  induction rows as [| r rows IH]; simpl; [done |].
  by rewrite Hix, IH.
Qed.

(** X5: the call reads the first four fields of every catalogue row and
    nothing else: when all rows have the same number of fields, four or
    more, cutting every row down to its first four fields changes nothing
    in the call, neither its events nor its outcome. *)
Theorem X5_fields_beyond_the_fourth_ignored w pp ff sep col cfg t n :
  files w !! constellations_path w = Some t ->
  (4 <= n)%nat ->
  Forall (fun r => length r = n) t ->
  drawConstellations (with_catalog w (map (take 4) t)) pp ff sep col cfg
  = drawConstellations w pp ff sep col cfg.
Proof.
  intros Hf Hn Hlen.
  assert (load_lines (with_catalog w (map (take 4) t)) = load_lines w) as Hl.
  { unfold load_lines, loadtxt.
    change (constellations_path (with_catalog w (map (take 4) t)))
      with (constellations_path w).
    simpl files. rewrite lookup_insert_eq, Hf.
    assert (Forall (fun r => length r = 4%nat) (map (take 4) t)) as Hlen4.
    { apply Forall_map. eapply Forall_impl; [exact Hlen |].
      intros r Hr. simpl in Hr |- *. rewrite length_take. lia. }
    rewrite (filter_nonblank_id _ 4) by (done || lia).
    rewrite (filter_nonblank_id _ n) by (done || lia).
    destruct t as [| r0 rest]; [done |].
    apply Forall_cons in Hlen as [Hr0 Hrest].
    simpl map in *. apply Forall_cons in Hlen4 as [Hr04 Hrest4].
    rewrite (forallb_same_length rest n (length r0) (eq_sym Hr0) Hrest).
    rewrite (forallb_same_length (map (take 4) rest) 4 (length (take 4 r0))
               (eq_sym Hr04) Hrest4).
    destruct r0 as [| a [| b [| c [| d r0]]]]; simpl in Hr0; try lia.
    destruct rest as [| r1 rest]; [done |].
    change (squeeze (take 4 (a :: b :: c :: d :: r0) :: map (take 4) (r1 :: rest)))
      with (Arr2 (map (take 4) ((a :: b :: c :: d :: r0) :: r1 :: rest))).
    change (squeeze ((a :: b :: c :: d :: r0) :: r1 :: rest))
      with (Arr2 ((a :: b :: c :: d :: r0) :: r1 :: rest)).
    assert (forall (ev : Event) (x : ndarray),
              (py_emit ev ≫= fun _ => py_ret x) = ([ev], Returns x)) as Hemit
      by reflexivity.
    rewrite !Hemit, !py_bind_pair. unfold column. cbv beta iota.
    by rewrite !column_take by lia. }
  rewrite !drawConstellations_eq.
  change (constellations_path (with_catalog w (map (take 4) t)))
    with (constellations_path w).
  by rewrite Hl.
Qed.

(** *** The threshold *)

Ltac float_order :=
  repeat match goal with
         | |- context [Pos.compare_cont Eq ?p ?q] =>
             change (Pos.compare_cont Eq p q) with (Pos.compare p q)
         | H : context [Pos.compare_cont Eq ?p ?q] |- _ =>
             change (Pos.compare_cont Eq p q) with (Pos.compare p q) in H
         end;
  repeat match goal with
         | H : context [Z.compare ?a ?b] |- _ =>
             destruct (Z.compare_spec a b); simpl in H; try discriminate
         | H : context [Pos.compare ?a ?b] |- _ =>
             destruct (Pos.compare_spec a b); simpl in H; try discriminate
         end;
  repeat match goal with
         | |- context [Z.compare ?a ?b] =>
             destruct (Z.compare_spec a b); simpl; try lia
         | |- context [Pos.compare ?a ?b] =>
             destruct (Pos.compare_spec a b); simpl; try lia
         end;
  try reflexivity; try lia.

(** What is below a threshold is below every larger threshold. *)
Lemma ltb_leb_trans (x a b : float) :
  Float64.ltb x a = true -> float_leb a b = true -> Float64.ltb x b = true.
Proof.
  unfold Float64.ltb, float_leb, SFltb, SFleb.
  destruct x as [sx | sx | | sx mx ex], a as [sa | sa | | sa ma ea],
    b as [sb | sb | | sb mb eb]; simpl; try discriminate; try reflexivity;
    try (destruct sx); try (destruct sa); try (destruct sb); simpl;
    try discriminate; try reflexivity; intros H1 H2; float_order.
Qed.

(** The test of line 36 is monotone in the threshold. *)
Lemma passes_filter_mono t1 t2 a i :
  float_leb t1 t2 = true ->
  passes_filter t1 a i = true -> passes_filter t2 a i = true.
Proof.
  intros Hle. unfold passes_filter.
  destruct (ang_sep a !! i) as [s |]; [| done].
  intros H. by eapply ltb_leb_trans.
Qed.

(** *** Paths *)

Lemma split_no_slash (n : string) :
  no_slash n = true -> PosixPath.split_at_last_slash n = (EmptyString, n).
Proof.
  induction n as [| c n IH]; simpl; [done |].
  intros [Hc Hn]%andb_prop. rewrite (IH Hn). simpl.
  by destruct (PosixPath.is_slash c).
Qed.

Lemma split_in_directory (d n : string) :
  no_slash n = true ->
  PosixPath.split_at_last_slash (in_directory d n)
  = (String.append d (String PosixPath.slash EmptyString), n).
Proof.
  intros Hn. unfold in_directory. induction d as [| c d IH]; simpl.
  - by rewrite (split_no_slash n Hn).
  - rewrite IH. by destruct d.
Qed.

Lemma basename_in_directory (d n : string) :
  no_slash n = true -> PosixPath.basename (in_directory d n) = n.
Proof. intros Hn. unfold PosixPath.basename. by rewrite split_in_directory. Qed.

Lemma basename_no_slash (n : string) :
  no_slash n = true -> PosixPath.basename n = n.
Proof. intros Hn. unfold PosixPath.basename. by rewrite split_no_slash. Qed.

(** X7: the directory of the FF file plays no part in the call: only the
    name after the last slash reaches the capture moment, so the file
    [d/name] gives the same call as [name] alone. *)
Theorem X7_only_the_base_name_of_the_ff_file w pp sep col cfg d name :
  no_slash name = true ->
  drawConstellations w pp (in_directory d name) sep col cfg
  = drawConstellations w pp name sep col cfg.
Proof.
  intros Hn. rewrite !drawConstellations_eq.
  assert (fftime_jd (in_directory d name) cfg = fftime_jd name cfg) as ->; [| done].
  unfold fftime_jd. by rewrite basename_in_directory, basename_no_slash.
Qed.

Lemma append_cons (c : ascii) (s t : string) :
  String.append (String c s) t = String c (String.append s t).
Proof. reflexivity. Qed.

Lemma append_nil (t : string) : String.append EmptyString t = t.
Proof. reflexivity. Qed.

Lemma rstrip_slash_dir (d : string) :
  PosixPath.is_empty d = false -> PosixPath.ends_with_slash d = false ->
  PosixPath.rstrip_slash (String.append d (String PosixPath.slash EmptyString)) = d /\
  PosixPath.all_slashes (String.append d (String PosixPath.slash EmptyString)) = false /\
  PosixPath.is_empty (PosixPath.rstrip_slash d) = false.
Proof.
  induction d as [| c d IH]; [done |]. intros _ Hend.
  destruct d as [| c' d'].
  - rewrite append_cons, append_nil.
    cbn [PosixPath.rstrip_slash PosixPath.all_slashes
         PosixPath.ends_with_slash PosixPath.is_empty] in *.
    by rewrite Hend.
  - destruct IH as (IH1 & IH2 & IH3); [done | exact Hend |].
    remember (String c' d') as d0 eqn:Hd0.
    rewrite append_cons.
    cbn [PosixPath.rstrip_slash PosixPath.all_slashes].
    rewrite IH1, IH2, IH3, andb_false_r. subst d0. done.
Qed.

(** X8: the catalogue is looked for beside the module, not beside the data:
    for a module file [d/name] the path opened is
    [d/../share/constellation_lines.csv], and for a module file given by its
    bare name it is [../share/constellation_lines.csv], relative to the
    working directory. *)
Theorem X8_catalog_beside_the_module w d name :
  no_slash name = true ->
  (module_file w = name ->
   constellations_path w = "../share/constellation_lines.csv") /\
  (PosixPath.is_empty d = false -> PosixPath.ends_with_slash d = false ->
   module_file w = in_directory d name ->
   constellations_path w
   = in_directory d "../share/constellation_lines.csv").
Proof.
  intros Hn. unfold constellations_path, PosixPath.dirname. split.
  - intros ->. by rewrite split_no_slash.
  - intros Hd Hend ->. rewrite split_in_directory by done. simpl fst.
    destruct (rstrip_slash_dir d Hd Hend) as (H1 & H2 & _).
    rewrite H1, H2.
    destruct d as [| c d]; [done |]. cbn [String.append PosixPath.is_empty].
    simpl negb. simpl andb. unfold PosixPath.join, in_directory.
    simpl PosixPath.starts_with_slash. cbv iota. rewrite Hd, Hend. done.
Qed.

(** *** Pixel by pixel *)

Lemma pixel_in_bounds (img : image) rows cols chans y x :
  has_shape img rows cols chans -> (y < rows)%nat -> (x < cols)%nat ->
  exists row px, img !! y = Some row /\ length row = cols /\ row !! x = Some px.
Proof.
  intros [Hlen Hrows] Hy Hx.
  destruct (lookup_lt_is_Some_2 img y) as [row Hrow]; [lia |].
  assert (length row = cols) as Hl.
  { rewrite Forall_forall in Hrows.
    pose proof (list_elem_of_lookup_2 _ _ _ Hrow) as Hin.
    by destruct (Hrows _ Hin). }
  destruct (lookup_lt_is_Some_2 row x) as [px Hpx]; [lia |].
  by exists row, px.
Qed.

Lemma set_pixel_pixel color (img : image) p rows cols chans y x :
  has_shape img rows cols chans -> (y < rows)%nat -> (x < cols)%nat ->
  pixel (Cv2.set_pixel color img p) y x
  = if decide (p = (Z.of_nat x, Z.of_nat y))
    then Some (map Cv2.saturate_u8 color) else pixel img y x.
Proof.
  intros Hs Hy Hx.
  destruct (pixel_in_bounds _ _ _ _ _ _ Hs Hy Hx) as (row & px & Hrow & Hl & Hpx).
  destruct p as [px' py']. unfold Cv2.set_pixel, pixel.
  destruct (Z.leb_spec 0 px') as [E1 | E1];
    destruct (Z.leb_spec 0 py') as [E2 | E2]; simpl;
    try (rewrite decide_False by (intros [= Hp1 Hp2]; lia); done).
  rewrite list_lookup_alter.
  destruct (decide (Z.to_nat py' = y)) as [<- | Hne].
  - rewrite Hrow. simpl.
    destruct (decide (Z.to_nat px' < length row)%nat) as [Hin | Hout].
    + destruct (decide (Z.to_nat px' = x)) as [<- | Hne'].
      * rewrite list_lookup_insert_eq by lia.
        rewrite decide_True; [done |]. f_equal; lia.
      * rewrite list_lookup_insert_ne by done.
        rewrite decide_False; [done |]. intros [= Hp1 Hp2]. lia.
    + rewrite decide_False; [done |]. intros [= Hp1 Hp2]. lia.
  - rewrite decide_False; [done |]. intros [= Hp1 Hp2]. lia.
Qed.

Lemma paint_pixel color ps (img : image) rows cols y x :
  has_shape img rows cols (length color) -> (y < rows)%nat -> (x < cols)%nat ->
  pixel (Cv2.paint color img ps) y x
  = if decide ((Z.of_nat x, Z.of_nat y) ∈ ps)
    then Some (map Cv2.saturate_u8 color) else pixel img y x.
Proof.
  intros Hs Hy Hx. revert img Hs.
  induction ps as [| p ps IH]; intros img Hs.
  - done.
  - change (Cv2.paint color img (p :: ps))
      with (Cv2.paint color (Cv2.set_pixel color img p) ps).
    rewrite IH by (by apply set_pixel_has_shape).
    rewrite (set_pixel_pixel _ _ _ rows cols (length color)) by done.
    destruct (decide ((Z.of_nat x, Z.of_nat y) ∈ ps)) as [Hin | Hin].
    + rewrite decide_True; [done |]. by right.
    + destruct (decide (p = (Z.of_nat x, Z.of_nat y))) as [-> | Hne].
      * rewrite decide_True; [done |]. by left.
      * rewrite decide_False; [done |].
        intros [? | ?]%elem_of_cons; congruence.
Qed.

Lemma extent_has_shape (img : image) rows cols chans :
  has_shape img rows cols chans -> (0 < rows)%nat ->
  Cv2.extent img = (rows, cols).
Proof.
  intros [Hlen Hrows] Hr. unfold Cv2.extent.
  destruct img as [| row img]; simpl in *; [lia |].
  apply Forall_cons in Hrows as [[Hrow _] _]. by rewrite Hlen, Hrow.
Qed.

(** After the loop a pixel carries the colour when it lies on the raster of
    one of the segments drawn, and is what it was otherwise. *)
Lemma draw_lines_pixel color ls (img : image) rows cols y x :
  has_shape img rows cols (length color) -> (y < rows)%nat -> (x < cols)%nat ->
  (on_segments (rows, cols) ls y x ->
   pixel (draw_lines color img ls) y x = Some (map Cv2.saturate_u8 color)) /\
  (~ on_segments (rows, cols) ls y x ->
   pixel (draw_lines color img ls) y x = pixel img y x).
Proof.
  intros Hs Hy Hx. unfold draw_lines, on_segments. revert img Hs.
  induction ls as [| l ls IH]; intros img Hs; simpl.
  - split; [by intros ?%Exists_nil | done].
  - set (img1 := Cv2.paint color img _).
    assert (has_shape img1 rows cols (length color)) as Hs1
      by (by apply paint_has_shape).
    destruct (IH img1 Hs1) as [IH1 IH2].
    assert (pixel img1 y x
            = if decide ((Z.of_nat x, Z.of_nat y)
                         ∈ line_pixels (rows, cols) (fst l) (snd l) 1)
              then Some (map Cv2.saturate_u8 color) else pixel img y x) as H1.
    { unfold img1. rewrite (extent_has_shape _ _ _ _ Hs) by lia.
      by apply (paint_pixel _ _ _ rows cols). }
    split.
    + intros Hex. destruct (decide (Exists (fun l0 =>
          (Z.of_nat x, Z.of_nat y) ∈ line_pixels (rows, cols) (fst l0) (snd l0) 1) ls))
        as [Hin | Hin]; [by apply IH1 |].
      rewrite IH2, H1 by done.
      apply Exists_cons in Hex as [Hl | ?]; [| done].
      by rewrite decide_True.
    + intros Hnex. rewrite IH2, H1.
      * rewrite decide_False; [done |]. intros ?. apply Hnex. by left.
      * intros ?. apply Hnex. by right.
Qed.

(** X9: the canvas a call returns, pixel by pixel: a pixel inside the
    canvas is [255, 0, 0, 192] when it lies on the raster of one of the
    segments drawn (the segments whose "from" end passes the filter), and
    transparent black otherwise. *)
Theorem X9_pixels_of_the_returned_canvas w pp ff sep col cfg img y x :
  result (drawConstellations w pp ff sep col cfg) = Returns img ->
  (y < Z.to_nat (Y_res pp))%nat -> (x < Z.to_nat (X_res pp))%nat ->
  exists jd from_ra from_dec to_ra to_dec ls,
    fftime_jd ff cfg = Returns jd /\
    result (load_lines w) = Returns (from_ra, from_dec, to_ra, to_dec) /\
    mapM (end_points_at (arrays_of pp jd from_ra from_dec to_ra to_dec))
      (List.filter (from_within pp sep from_ra from_dec)
         (seq 0 (length (fst (raDecToXYPP to_ra to_dec jd pp)))))
    = Returns ls /\
    let extent := (Z.to_nat (Y_res pp), Z.to_nat (X_res pp)) in
    (on_segments extent ls y x -> pixel img y x = Some [255; 0; 0; 192]) /\
    (~ on_segments extent ls y x -> pixel img y x = Some [0; 0; 0; 0]).
Proof.
  intros H Hy Hx.
  apply drawConstellations_returns in H
    as (img0 & jd & from_ra & from_dec & to_ra & to_dec & Hc & Hjd & Hl & H).
  set (a := arrays_of pp jd from_ra from_dec to_ra to_dec) in *.
  assert (List.filter (passes_filter sep a) (seq 0 (length (to_x a)))
          = List.filter (from_within pp sep from_ra from_dec)
              (seq 0 (length (fst (raDecToXYPP to_ra to_dec jd pp))))) as Hf.
  { apply List.filter_ext. intros i. apply passes_filter_from_within. }
  assert (exists ls,
    mapM (end_points_at a)
      (List.filter (passes_filter sep a) (seq 0 (length (to_x a)))) = Returns ls /\
    img = draw_lines [255; 0; 0; 192] img0 ls) as (ls & Hls & ->).
  { unfold draw_loop, local_color_bgr in H.
    destruct (negb (Python.truthy col)).
    - by apply draw_from_returns.
    - apply draw_from_unbound in H as [-> ->]. by exists []. }
  exists jd, from_ra, from_dec, to_ra, to_dec, ls.
  rewrite <- Hf. repeat (split; [done |]).
  pose proof (blank_canvas_has_shape _ _ Hc) as Hs.
  pose proof (blank_canvas_transparent _ _ Hc) as Ht.
  destruct (draw_lines_pixel [255; 0; 0; 192] ls img0 _ _ y x Hs Hy Hx)
    as [H1 H2].
  split; [exact H1 |]. intros Hn. rewrite (H2 Hn).
  destruct (pixel_in_bounds _ _ _ _ _ _ Hs Hy Hx) as (row & px & Hrow & _ & Hpx).
  unfold pixel. rewrite Hrow. simpl. rewrite Hpx. f_equal.
  rewrite Forall_forall in Ht.
  apply list_elem_of_lookup_2 in Hrow.
  specialize (Ht _ Hrow). rewrite Forall_forall in Ht.
  apply list_elem_of_lookup_2 in Hpx.
  symmetry. by apply Ht.
Qed.

(** C2 (amended): for every call that returns a canvas, the segments
    drawn are exactly those whose "from" end lies at a separation strictly
    below [separation_deg] from the pointing centre, in catalogue order.
    The test reads the pointing centre and the "from" columns only.  Drawn
    means: a pixel of the returned canvas is [255, 0, 0, 192] when it lies
    on the raster of one of these segments and transparent black otherwise.
    With a threshold of zero (of either sign) nothing is drawn and the
    canvas comes back blank; this part uses that arccos is never
    negative.  A call that raises returns no canvas and draws nothing. *)
Theorem C2_filter_reads_from_endpoint_only w pp ff sep col cfg img' :
  result (drawConstellations w pp ff sep col cfg) = Returns img' ->
  exists img0 jd from_ra from_dec to_ra to_dec ls,
    blank_canvas pp = Returns img0 /\
    fftime_jd ff cfg = Returns jd /\
    result (load_lines w) = Returns (from_ra, from_dec, to_ra, to_dec) /\
    (forall i,
       from_within pp sep from_ra from_dec i = true <->
       exists ra dec,
         from_ra !! i = Some ra /\ from_dec !! i = Some dec /\
         Float64.ltb (ang_sep_deg pp ra dec) sep = true) /\
    mapM (end_points_at (arrays_of pp jd from_ra from_dec to_ra to_dec))
      (List.filter (from_within pp sep from_ra from_dec)
         (seq 0 (length (fst (raDecToXYPP to_ra to_dec jd pp)))))
    = Returns ls /\
    img' = draw_lines [255; 0; 0; 192] img0 ls /\
    (forall y x,
       (y < Z.to_nat (Y_res pp))%nat -> (x < Z.to_nat (X_res pp))%nat ->
       let extent := (Z.to_nat (Y_res pp), Z.to_nat (X_res pp)) in
       (on_segments extent ls y x -> pixel img' y x = Some [255; 0; 0; 192]) /\
       (~ on_segments extent ls y x -> pixel img' y x = Some [0; 0; 0; 0])) /\
    ((forall x, Float64.ltb (np_arccos x) zero = false) ->
     (exists s, sep = S754_zero s) -> ls = [] /\ img' = img0).
Proof.
  intros H.
  apply drawConstellations_returns in H
    as (img0 & jd & from_ra & from_dec & to_ra & to_dec & Hc & Hjd & Hl & H).
  set (a := arrays_of pp jd from_ra from_dec to_ra to_dec) in *.
  assert (List.filter (passes_filter sep a) (seq 0 (length (to_x a)))
          = List.filter (from_within pp sep from_ra from_dec)
              (seq 0 (length (fst (raDecToXYPP to_ra to_dec jd pp))))) as Hf.
  { apply List.filter_ext. intros i. apply passes_filter_from_within. }
  assert (exists ls,
    mapM (end_points_at a)
      (List.filter (passes_filter sep a) (seq 0 (length (to_x a)))) = Returns ls /\
    img' = draw_lines [255; 0; 0; 192] img0 ls) as (ls & Hls & ->).
  { unfold draw_loop, local_color_bgr in H.
    destruct (negb (Python.truthy col)).
    - by apply draw_from_returns.
    - apply draw_from_unbound in H as [-> ->]. by exists []. }
  exists img0, jd, from_ra, from_dec, to_ra, to_dec, ls.
  rewrite <- Hf. repeat (split; [done |]).
  split; [| split; [done |]; split; [done |]; split].
  - intros i. unfold from_within.
    destruct (from_ra !! i) as [ra |]; [destruct (from_dec !! i) as [dec |] |].
    + split; [by exists ra, dec | by intros (? & ? & [= <-] & [= <-] & ?)].
    + split; [done | by intros (? & ? & _ & ? & _)].
    + split; [done | by intros (? & ? & ? & _)].
  - intros y x Hy Hx extent.
    pose proof (blank_canvas_has_shape _ _ Hc) as Hs.
    pose proof (blank_canvas_transparent _ _ Hc) as Ht.
    destruct (draw_lines_pixel [255; 0; 0; 192] ls img0 _ _ y x Hs Hy Hx)
      as [H1 H2].
    split; [exact H1 |]. intros Hn. rewrite (H2 Hn).
    destruct (pixel_in_bounds _ _ _ _ _ _ Hs Hy Hx)
      as (row & px & Hrow & _ & Hpx).
    unfold pixel. rewrite Hrow. simpl. rewrite Hpx. f_equal.
    rewrite Forall_forall in Ht.
    apply list_elem_of_lookup_2 in Hrow.
    specialize (Ht _ Hrow). rewrite Forall_forall in Ht.
    apply list_elem_of_lookup_2 in Hpx.
    symmetry. by apply Ht.
  - intros Hacos [s ->].
    assert (List.filter (passes_filter (S754_zero s) a) (seq 0 (length (to_x a))) = [])
      as Hnil.
    { rewrite Hf. apply filter_none. intros i. by apply from_within_zero. }
    rewrite Hnil in Hls. simpl in Hls. injection Hls as <-. done.
Qed.

(** The canvas does not depend on the order in which segments are drawn,
    nor on a segment being drawn more than once. *)
Lemma draw_lines_same_segments color ls ls' (img : image) rows cols :
  has_shape img rows cols (length color) ->
  (forall l, l ∈ ls <-> l ∈ ls') ->
  draw_lines color img ls = draw_lines color img ls'.
Proof.
  intros Hs Hsame.
  assert (has_shape (draw_lines color img ls) rows cols (length color)) as H1
    by (by apply draw_lines_has_shape).
  assert (has_shape (draw_lines color img ls') rows cols (length color)) as H2
    by (by apply draw_lines_has_shape).
  assert (forall y x, on_segments (rows, cols) ls y x
                      <-> on_segments (rows, cols) ls' y x) as Hon.
  { intros y x. unfold on_segments. rewrite !Exists_exists.
    split; intros (l & Hl & Hp); exists l; split; try done; by apply Hsame. }
  apply list_eq. intros y.
  destruct (decide (y < rows)%nat) as [Hy | Hy].
  - destruct (lookup_lt_is_Some_2 (draw_lines color img ls) y) as [r1 Hr1];
      [destruct H1; lia |].
    destruct (lookup_lt_is_Some_2 (draw_lines color img ls') y) as [r2 Hr2];
      [destruct H2; lia |].
    rewrite Hr1, Hr2. f_equal. apply list_eq. intros x.
    assert (length r1 = cols) as Hl1.
    { destruct H1 as [_ Hf]. rewrite Forall_forall in Hf.
      pose proof (list_elem_of_lookup_2 _ _ _ Hr1) as Hin.
      by destruct (Hf _ Hin). }
    assert (length r2 = cols) as Hl2.
    { destruct H2 as [_ Hf]. rewrite Forall_forall in Hf.
      pose proof (list_elem_of_lookup_2 _ _ _ Hr2) as Hin.
      by destruct (Hf _ Hin). }
    destruct (decide (x < cols)%nat) as [Hx | Hx].
    + destruct (draw_lines_pixel color ls img rows cols y x Hs Hy Hx) as [A1 A2].
      destruct (draw_lines_pixel color ls' img rows cols y x Hs Hy Hx) as [B1 B2].
      unfold pixel in A1, A2, B1, B2. rewrite Hr1 in A1, A2. rewrite Hr2 in B1, B2.
      simpl in *.
      destruct (decide (on_segments (rows, cols) ls y x)) as [Hin | Hin].
      * rewrite A1, B1; [done | by apply Hon | done].
      * rewrite A2, B2; [done | by rewrite <- Hon | done].
    + rewrite !lookup_ge_None_2 by lia. done.
  - destruct H1 as [H1 _], H2 as [H2 _].
    rewrite !lookup_ge_None_2 by lia. done.
Qed.

(** *** Raising the threshold *)

(** An iteration that goes through with a threshold goes through with
    every smaller one, on any canvas. *)
Lemma draw_segment_mono t1 t2 col a img i img2 :
  float_leb t1 t2 = true ->
  draw_segment t2 col a img i = Returns img2 ->
  forall img', exists img1, draw_segment t1 col a img' i = Returns img1.
Proof.
  intros Hle H img'.
  destruct (ang_sep a !! i) as [s |] eqn:Hs.
  - destruct (Float64.ltb s t1) eqn:H1.
    + assert (Float64.ltb s t2 = true) as H2 by (by eapply ltb_leb_trans).
      rewrite (draw_segment_passes _ _ _ _ _ _ Hs H2) in H.
      rewrite (draw_segment_passes _ _ _ _ _ _ Hs H1).
      destruct (end_points_at a i) as [l |]; [| discriminate].
      destruct (Python.read_local col) as [color |]; [| discriminate].
      simpl in *. unfold Cv2.line in *.
      destruct (_ && _); [eauto | discriminate].
    + exists img'. by eapply draw_segment_skip.
  - unfold draw_segment, Python.index in H. by rewrite Hs in H.
Qed.

Lemma draw_from_mono t1 t2 col a idx img img2 :
  float_leb t1 t2 = true ->
  draw_from t2 col a img idx = Returns img2 ->
  forall img', exists img1, draw_from t1 col a img' idx = Returns img1.
Proof.
  intros Hle. revert img.
  induction idx as [| i idx IH]; intros img H img'; simpl in *; [eauto |].
  destruct (draw_segment t2 col a img i) as [x |] eqn:E; [| discriminate].
  destruct (draw_segment_mono _ _ _ _ _ _ _ Hle E img') as [x' ->].
  simpl in *. by eapply IH.
Qed.

(** What [mapM] returns comes from the elements of the list. *)
Lemma mapM_returns_elem {A B} (f : A -> outcome B) (xs : list A) (ys : list B) :
  mapM f xs = Returns ys ->
  forall y, y ∈ ys <-> exists x, x ∈ xs /\ f x = Returns y.
Proof.
  revert ys. induction xs as [| x xs IH]; intros ys H y; simpl in H.
  - injection H as <-. split; [by intros ?%elem_of_nil |].
    by intros (? & ?%elem_of_nil & _).
  - destruct (f x) as [b |] eqn:Hb; [| discriminate]. simpl in H.
    destruct (mapM f xs) as [bs |]; [| discriminate]. simpl in H.
    injection H as <-. specialize (IH bs eq_refl y).
    rewrite elem_of_cons, IH. split.
    + intros [-> | (x' & Hx' & Hy)].
      * exists x. split; [by left | done].
      * exists x'. split; [by right | done].
    + intros (x' & [-> | Hx']%elem_of_cons & Hy).
      * left. congruence.
      * right. by exists x'.
Qed.

(** A pixel that is found lies inside the canvas. *)
Lemma pixel_Some_in_bounds (img : image) rows cols chans y x px :
  has_shape img rows cols chans -> pixel img y x = Some px ->
  (y < rows)%nat /\ (x < cols)%nat.
Proof.
  intros [Hlen Hrows] H. unfold pixel in H.
  destruct (img !! y) as [row |] eqn:Hrow; [| discriminate]. simpl in H.
  split.
  - apply lookup_lt_Some in Hrow. lia.
  - apply lookup_lt_Some in H. rewrite Forall_forall in Hrows.
    apply list_elem_of_lookup_2 in Hrow. destruct (Hrows _ Hrow). lia.
Qed.

(** A pixel of a blank canvas inside it. *)
Lemma blank_canvas_pixel pp img y x :
  blank_canvas pp = Returns img ->
  (y < Z.to_nat (Y_res pp))%nat -> (x < Z.to_nat (X_res pp))%nat ->
  pixel img y x = Some [0; 0; 0; 0].
Proof.
  intros Hc Hy Hx.
  pose proof (blank_canvas_has_shape _ _ Hc) as Hs.
  pose proof (blank_canvas_transparent _ _ Hc) as Ht.
  destruct (pixel_in_bounds _ _ _ _ _ _ Hs Hy Hx) as (row & px & Hrow & _ & Hpx).
  unfold pixel. rewrite Hrow. simpl. rewrite Hpx. f_equal.
  rewrite Forall_forall in Ht.
  apply list_elem_of_lookup_2 in Hrow.
  specialize (Ht _ Hrow). rewrite Forall_forall in Ht.
  apply list_elem_of_lookup_2 in Hpx.
  symmetry. by apply Ht.
Qed.

(** X6: raising the threshold only adds lines.  When the call returns
    with a threshold [t2] it returns with every threshold [t1 <= t2], and
    every pixel that carries the line colour on the canvas of [t1] carries
    it on the canvas of [t2]. *)
Theorem X6_raising_the_threshold_only_adds_lines w pp ff t1 t2 col cfg img2 :
  float_leb t1 t2 = true ->
  result (drawConstellations w pp ff t2 col cfg) = Returns img2 ->
  exists img1,
    result (drawConstellations w pp ff t1 col cfg) = Returns img1 /\
    forall y x,
      pixel img1 y x = Some [255; 0; 0; 192] ->
      pixel img2 y x = Some [255; 0; 0; 192].
Proof.
  intros Hle H.
  apply drawConstellations_returns in H
    as (img0 & jd & from_ra & from_dec & to_ra & to_dec & Hc & Hjd & Hl & H).
  set (a := arrays_of pp jd from_ra from_dec to_ra to_dec) in *.
  unfold draw_loop in H.
  destruct (draw_from_mono _ _ _ _ _ _ _ Hle H img0) as [img1 H1].
  exists img1. split.
  { rewrite drawConstellations_eq, Hc, Hjd, Hl. exact H1. }
  pose proof (blank_canvas_has_shape _ _ Hc) as Hs.
  unfold local_color_bgr in H, H1.
  destruct (negb (Python.truthy col)).
  - apply draw_from_returns in H as (ls2 & Hls2 & ->).
    apply draw_from_returns in H1 as (ls1 & Hls1 & ->).
    intros y x Hpx.
    assert (has_shape (draw_lines [255; 0; 0; 192] img0 ls1)
              (Z.to_nat (Y_res pp)) (Z.to_nat (X_res pp)) 4) as Hs1
      by (by apply draw_lines_has_shape).
    destruct (pixel_Some_in_bounds _ _ _ _ _ _ _ Hs1 Hpx) as [Hy Hx].
    destruct (draw_lines_pixel [255; 0; 0; 192] ls1 img0 _ _ y x Hs Hy Hx)
      as [_ A2].
    destruct (draw_lines_pixel [255; 0; 0; 192] ls2 img0 _ _ y x Hs Hy Hx)
      as [B1 _].
    apply B1.
    destruct (decide (on_segments (Z.to_nat (Y_res pp), Z.to_nat (X_res pp))
                        ls1 y x)) as [Hon | Hoff].
    + unfold on_segments in *. rewrite Exists_exists in *.
      destruct Hon as (l & Hl1 & Hp). exists l. split; [| exact Hp].
      apply (mapM_returns_elem _ _ _ Hls1) in Hl1 as (i & Hi & Hli).
      apply (mapM_returns_elem _ _ _ Hls2). exists i. split; [| exact Hli].
      apply list_elem_of_In, List.filter_In.
      apply list_elem_of_In, List.filter_In in Hi as [Hin Hp1].
      split; [exact Hin |]. by eapply passes_filter_mono.
    + rewrite (A2 Hoff), (blank_canvas_pixel _ _ _ _ Hc Hy Hx) in Hpx.
      discriminate.
  - apply draw_from_unbound in H as [_ ->].
    by apply draw_from_unbound in H1 as [_ ->].
Qed.

(** *** The order of the catalogue rows *)

Lemma draw_segment_segment_at sep col a img i :
  draw_segment sep col a img i
  = (o ← segment_at sep col a i;
     Returns match o with
             | Some l => Cv2.paint (line_color col) img
                           (line_pixels (Cv2.extent img) (fst l) (snd l) 1)
             | None => img
             end).
Proof.
  destruct (ang_sep a !! i) as [s |] eqn:Hs.
  - destruct (Float64.ltb s sep) eqn:Hlt.
    + rewrite (draw_segment_passes _ _ _ _ _ _ Hs Hlt).
      unfold segment_at, Python.index. rewrite Hs. simpl. rewrite Hlt.
      destruct (end_points_at a i) as [l |]; simpl; [| done].
      destruct col as [color |]; simpl; [| done].
      unfold Cv2.line. by destruct (_ && _).
    + rewrite (draw_segment_skip _ _ _ _ _ _ Hs Hlt).
      unfold segment_at, Python.index. rewrite Hs. simpl. by rewrite Hlt.
  - unfold draw_segment, segment_at, Python.index. by rewrite Hs.
Qed.

(** The loop first settles what to draw, then draws. *)
Lemma draw_from_segments sep col a idx img :
  draw_from sep col a img idx
  = (os ← mapM (segment_at sep col a) idx;
     Returns (draw_lines (line_color col) img (omap id os))).
Proof.
  revert img. induction idx as [| i idx IH]; intros img; simpl; [done |].
  rewrite draw_segment_segment_at.
  destruct (segment_at sep col a i) as [o |]; simpl; [| done].
  rewrite IH. destruct (mapM (segment_at sep col a) idx) as [os |]; simpl;
    [| done].
  by destruct o.
Qed.

Lemma segment_at_values sep col a i s fx fy tx ty :
  ang_sep a !! i = Some s ->
  from_x a !! i = Some fx -> from_y a !! i = Some fy ->
  to_x a !! i = Some tx -> to_y a !! i = Some ty ->
  segment_at sep col a i = segment_of_values sep col s fx fy tx ty.
Proof.
  intros Hs Hfx Hfy Htx Hty.
  unfold segment_at, segment_of_values, end_points_at, Python.index.
  rewrite Hs, Hfx, Hfy, Htx, Hty. simpl.
  destruct (Float64.ltb s sep); [| done].
  destruct (Python.int_round fx); simpl; [| done].
  destruct (Python.int_round fy); simpl; [| done].
  destruct (Python.int_round tx); simpl; [| done].
  by destruct (Python.int_round ty).
Qed.

Lemma mapM_map {A B} (f : A -> outcome B) (l : list A) :
  mapM f l = mapM id (map f l).
Proof. induction l as [| x l IH]; simpl; [done |]. by rewrite IH. Qed.

(** Outcomes in another order: all return when all returned, and the
    values are the same up to the order. *)
Lemma mapM_id_Permutation {A} (os os' : list (outcome A)) :
  os ≡ₚ os' ->
  forall xs, mapM id os = Returns xs ->
  exists xs', mapM id os' = Returns xs' /\ xs ≡ₚ xs'.
Proof.
  induction 1 as [| o l l' _ IH | o1 o2 l | l1 l2 l3 _ IH1 _ IH2];
    intros xs H; simpl in *.
  - injection H as <-. by exists [].
  - destruct o as [b |]; simpl in *; [| discriminate].
    destruct (mapM id l) as [bs |]; simpl in *; [| discriminate].
    injection H as <-. destruct (IH bs eq_refl) as (bs' & -> & Hp).
    exists (b :: bs'). split; [done |]. by constructor.
  - destruct o2 as [b2 |]; simpl in *; [| discriminate].
    destruct o1 as [b1 |]; simpl in *; [| discriminate].
    destruct (mapM id l) as [bs |]; simpl in *; [| discriminate].
    injection H as <-. exists (b1 :: b2 :: bs). split; [done |]. constructor.
  - destruct (IH1 _ H) as (xs2 & H2 & Hp2).
    destruct (IH2 _ H2) as (xs3 & H3 & Hp3).
    exists xs3. split; [done |]. by etransitivity.
Qed.

(** Without a colour nothing can be handed to [cv2.line]. *)
Lemma mapM_segments_unbound {A} (f : A -> outcome (option ((Z * Z) * (Z * Z))))
    (l : list A) os :
  (forall x o, f x = Returns o -> o = None) ->
  mapM f l = Returns os -> omap id os = [].
Proof.
  intros Hf. revert os. induction l as [| x l IH]; intros os H; simpl in H.
  - by injection H as <-.
  - destruct (f x) as [o |] eqn:Ho; simpl in H; [| discriminate].
    destruct (mapM f l) as [os' |]; simpl in H; [| discriminate].
    injection H as <-. simpl. rewrite (Hf _ _ Ho). simpl. by apply IH.
Qed.

Lemma segment_of_values_unbound sep s fx fy tx ty o :
  segment_of_values sep None s fx fy tx ty = Returns o -> o = None.
Proof.
  unfold segment_of_values. destruct (Float64.ltb s sep); [| congruence].
  destruct (Python.int_round fx); simpl; [| discriminate].
  destruct (Python.int_round fy); simpl; [| discriminate].
  destruct (Python.int_round tx); simpl; [| discriminate].
  destruct (Python.int_round ty); simpl; discriminate.
Qed.

(** The columns of a catalogue of two rows or more, each of [n >= 4]
    fields. *)
Lemma mapM_index_field (rows : table) (k n : nat) :
  (k < n)%nat -> Forall (fun r => length r = n) rows ->
  mapM (fun r => Python.index r k) rows = Returns (map (field k) rows).
Proof.
  intros Hk. induction 1 as [| r rows Hr _ IH]; simpl; [done |].
  rewrite IH. unfold Python.index, field.
  destruct (r !! k) as [x |] eqn:Hx.
  - simpl. by rewrite (nth_lookup_Some _ _ _ _ Hx).
  - apply lookup_ge_None in Hx. simpl in Hr. lia.
Qed.

Lemma load_lines_uniform w (t : table) n :
  files w !! constellations_path w = Some t ->
  (4 <= n)%nat -> Forall (fun r => length r = n) t -> (2 <= length t)%nat ->
  result (load_lines w)
  = Returns (map (field 0) t, map (field 1) t, map (field 2) t, map (field 3) t).
Proof.
  intros Hf Hn Hlen H2. unfold load_lines, loadtxt. rewrite Hf.
  rewrite (filter_nonblank_id _ n) by (done || lia).
  destruct t as [| r0 [| r1 rest]]; simpl in H2; try lia.
  pose proof Hlen as Hlen'.
  apply Forall_cons in Hlen' as [Hr0 Hrest].
  rewrite (forallb_same_length (r1 :: rest) n (length r0) (eq_sym Hr0) Hrest).
  destruct r0 as [| c0 [| c1 [| c2 [| c3 r0]]]]; simpl in Hr0; try lia.
  change (squeeze ((c0 :: c1 :: c2 :: c3 :: r0) :: r1 :: rest))
    with (Arr2 ((c0 :: c1 :: c2 :: c3 :: r0) :: r1 :: rest)).
  assert (forall (ev : Event) (x : ndarray),
            (py_emit ev ≫= fun _ => py_ret x) = ([ev], Returns x)) as Hemit
    by reflexivity.
  rewrite Hemit, py_bind_pair. unfold column. cbv beta iota.
  rewrite !(mapM_index_field _ _ n) by (done || lia). done.
Qed.

(** A catalogue of fewer than two rows makes the call raise. *)
Lemma load_lines_short w (t : table) n :
  files w !! constellations_path w = Some t ->
  (4 <= n)%nat -> Forall (fun r => length r = n) t -> (length t < 2)%nat ->
  result (load_lines w) = Raises IndexError.
Proof.
  intros Hf Hn Hlen H2. unfold load_lines, loadtxt. rewrite Hf.
  rewrite (filter_nonblank_id _ n) by (done || lia).
  destruct t as [| r0 [| r1 rest]]; simpl in H2; try lia; [done |].
  apply Forall_cons in Hlen as [Hr0 _].
  by destruct r0 as [| c0 [| c1 [| c2 [| c3 r0]]]]; simpl in Hr0; try lia.
Qed.

(** The call on a catalogue of rows, for a projector that works point by
    point: the rows decide, one by one, what is drawn. *)
Lemma drawConstellations_rows w pp ff sep col cfg (t : table) n point :
  files w !! constellations_path w = Some t ->
  (4 <= n)%nat -> Forall (fun r => length r = n) t -> (2 <= length t)%nat ->
  (forall ra dec jd pp,
     raDecToXYPP ra dec jd pp
     = (zip_with (fun r d => fst (point r d jd pp)) ra dec,
        zip_with (fun r d => snd (point r d jd pp)) ra dec)) ->
  result (drawConstellations w pp ff sep col cfg)
  = (img0 ← blank_canvas pp;
     jd ← fftime_jd ff cfg;
     os ← mapM id (map (row_segment point pp jd sep (local_color_bgr col)) t);
     Returns (draw_lines (line_color (local_color_bgr col)) img0 (omap id os))).
Proof.
  intros Hf Hn Hlen H2 Hproj.
  rewrite drawConstellations_eq.
  destruct (blank_canvas pp) as [img0 |]; simpl; [| done].
  destruct (fftime_jd ff cfg) as [jd |]; simpl; [| done].
  rewrite (load_lines_uniform _ _ _ Hf Hn Hlen H2). unfold result. simpl.
  unfold draw_loop. rewrite draw_from_segments, mapM_map.
  set (a := arrays_of pp jd (map (field 0) t) (map (field 1) t)
              (map (field 2) t) (map (field 3) t)).
  assert (length (to_x a) = length t) as Hlen_a.
  { unfold a, arrays_of. simpl. rewrite Hproj. simpl.
    rewrite length_zip_with, !length_map. lia. }
  assert (map (segment_at sep (local_color_bgr col) a) (seq 0 (length (to_x a)))
          = map (row_segment point pp jd sep (local_color_bgr col)) t) as ->;
    [| done].
  rewrite Hlen_a. apply list_eq. intros i.
  rewrite !list_lookup_fmap.
  destruct (t !! i) as [r |] eqn:Hr; simpl.
  - rewrite lookup_seq_lt by (by eapply lookup_lt_Some). simpl. f_equal.
    apply segment_at_values; unfold a, arrays_of, ang_sep_array; simpl;
      rewrite ?Hproj; simpl;
      by rewrite lookup_zip_with, !list_lookup_fmap, Hr.
  - apply lookup_ge_None in Hr. by rewrite lookup_seq_ge.
Qed.

(** X10: the order of the rows in the catalogue file does not matter for
    the canvas.  For a projector that works point by point and a catalogue
    whose rows all have the same number of fields, four or more: when the
    call returns a canvas, the call on the same rows in any other order
    returns the same canvas. *)
Theorem X10_row_order_does_not_matter w pp ff sep col cfg
    (t t' : table) n point img :
  files w !! constellations_path w = Some t ->
  (4 <= n)%nat -> Forall (fun r => length r = n) t ->
  t ≡ₚ t' ->
  (forall ra dec jd pp,
     raDecToXYPP ra dec jd pp
     = (zip_with (fun r d => fst (point r d jd pp)) ra dec,
        zip_with (fun r d => snd (point r d jd pp)) ra dec)) ->
  result (drawConstellations w pp ff sep col cfg) = Returns img ->
  result (drawConstellations (with_catalog w t') pp ff sep col cfg)
  = Returns img.
Proof.
  intros Hf Hn Hlen Hperm Hproj Hret.
  assert (2 <= length t)%nat as H2.
  { destruct (decide (2 <= length t)%nat) as [? | Hshort]; [done |].
    rewrite drawConstellations_eq in Hret.
    rewrite (load_lines_short _ _ _ Hf Hn Hlen) in Hret by lia.
    destruct (blank_canvas pp); [| discriminate].
    by destruct (fftime_jd ff cfg). }
  rewrite (drawConstellations_rows _ _ _ _ _ _ _ _ _ Hf Hn Hlen H2 Hproj) in Hret.
  assert (files (with_catalog w t') !! constellations_path (with_catalog w t')
          = Some t') as Hf'.
  { change (constellations_path (with_catalog w t'))
      with (constellations_path w).
    simpl. apply lookup_insert_eq. }
  assert (Forall (fun r => length r = n) t') as Hlen'
    by (by rewrite <- Hperm).
  assert (2 <= length t')%nat as H2' by (by rewrite <- Hperm).
  rewrite (drawConstellations_rows _ _ _ _ _ _ _ _ _ Hf' Hn Hlen' H2' Hproj).
  destruct (blank_canvas pp) as [img0 |] eqn:Hc; simpl in *; [| discriminate].
  destruct (fftime_jd ff cfg) as [jd |]; simpl in *; [| discriminate].
  set (f := row_segment point pp jd sep (local_color_bgr col)) in *.
  destruct (mapM id (map f t)) as [os |] eqn:Hos; simpl in Hret;
    [| discriminate].
  injection Hret as <-.
  destruct (mapM_id_Permutation (map f t) (map f t')
              (fmap_Permutation f _ _ Hperm) os Hos) as (os' & -> & Hp).
  simpl. f_equal.
  assert (omap id os ≡ₚ omap id os') as Hp' by (by rewrite Hp).
  unfold local_color_bgr in *.
  destruct (negb (Python.truthy col)).
  - apply (draw_lines_same_segments _ _ _ _ (Z.to_nat (Y_res pp))
             (Z.to_nat (X_res pp))).
    + by apply blank_canvas_has_shape.
    + intros l. by rewrite Hp'.
  - rewrite <- mapM_map in Hos.
    assert (omap id os = []) as Hnil.
    { eapply mapM_segments_unbound; [| exact Hos].
      intros r o. apply segment_of_values_unbound. }
    rewrite Hnil in Hp' |- *. symmetry in Hp'.
    apply Permutation_nil_r in Hp'. by rewrite Hp'.
Qed.

End Renderer_more.

(** ** The command-line entry point *)

(** *** The default output name *)

Lemma rstrip_fits_suffix (s : string) :
  Cli.rstrip ".fits" (String.append s ".fits") = Cli.rstrip ".fits" s.
Proof.
  induction s as [| c s IH]; [reflexivity |].
  rewrite append_cons. cbn [Cli.rstrip]. by rewrite IH.
Qed.

Lemma rstrip_last_not_in (chars s : string) :
  Cli.last_in chars s = false -> Cli.rstrip chars s = s.
Proof.
  induction s as [| c s IH]; [done |]. intros H.
  destruct s as [| c' s'].
  - simpl in *. by rewrite H.
  - change (Cli.last_in chars (String c' s') = false) in H.
    remember (String c' s') as r eqn:Hr.
    cbn [Cli.rstrip]. rewrite IH by exact H. by subst r.
Qed.

Lemma rstrip_length (chars s : string) :
  (String.length (Cli.rstrip chars s) <= String.length s)%nat.
Proof.
  induction s as [| c s IH]; simpl; [lia |].
  destruct (_ && _); simpl; lia.
Qed.

Lemma rstrip_last_in (chars s : string) :
  Cli.last_in chars s = true ->
  (String.length (Cli.rstrip chars s) < String.length s)%nat.
Proof.
  induction s as [| c s IH]; [done |]. intros H.
  destruct s as [| c' s'].
  - simpl in *. rewrite H. simpl. lia.
  - change (Cli.last_in chars (String c' s') = true) in H.
    specialize (IH H). remember (String c' s') as r eqn:Hr.
    cbn [Cli.rstrip]. destruct (_ && _); cbn [String.length] in *; lia.
Qed.

Lemma append_length (s t : string) :
  String.length (String.append s t) = (String.length s + String.length t)%nat.
Proof. induction s as [| c s IH]; [done |]. rewrite append_cons. simpl. by rewrite IH. Qed.

(** X11: the default output name is made with [rstrip(".fits")], which
    removes trailing characters of the set [. f i t s], not the suffix: for
    an FF file [stem.fits] the name is [stem_constellations.png] exactly
    when [stem] does not end in one of these characters; when it does, the
    end of the stem is lost as well. *)
Theorem X11_default_output_name (a : Cli.Args) (stem : string) :
  Cli.output a = None ->
  Cli.ff_file a = String.append stem ".fits" ->
  Cli.outfilename a
  = String.append (Cli.rstrip ".fits" stem) "_constellations.png" /\
  (Cli.last_in ".fits" stem = false ->
   Cli.outfilename a = String.append stem "_constellations.png") /\
  (Cli.last_in ".fits" stem = true ->
   Cli.outfilename a <> String.append stem "_constellations.png").
Proof.
  intros Ho Hf. unfold Cli.outfilename. rewrite Ho, Hf, rstrip_fits_suffix.
  split; [done |]. split.
  - intros H. by rewrite rstrip_last_not_in.
  - intros H%rstrip_last_in Heq.
    apply (f_equal String.length) in Heq. rewrite !append_length in Heq. lia.
Qed.

Section Script.

Context `{E : Cli.Externals}.

Implicit Types (m : Cli.Machine) (a : Cli.Args).

(** A canvas returned with the default colour has the shape of the plate. *)
Lemma returned_canvas_has_shape `{C : Collaborators} w pp ff sep cfg img :
  result (drawConstellations w pp ff sep None cfg) = Returns img ->
  has_shape img (Z.to_nat (Y_res pp)) (Z.to_nat (X_res pp)) 4.
Proof.
  intros H. apply drawConstellations_returns in H
    as (img0 & jd & from_ra & from_dec & to_ra & to_dec & Hc & _ & _ & H).
  apply blank_canvas_has_shape in Hc.
  apply draw_from_returns in H as (ls & _ & ->).
  by apply draw_lines_has_shape.
Qed.

#[local] Arguments Cli.render : simpl never.
#[local] Arguments Cli.write : simpl never.
#[local] Arguments Cli.override_resolution : simpl never.

(** Up to the rendering the script has opened the platepars file and
    loaded the configuration. *)
Lemma main_reaches m a platepar config :
  Cli.reaches_render m a platepar config ->
  Cli.main m a
  = (Cli.Open (Cli.platepars_file a)
       :: Cli.LoadConfig (Cli.config a) (Cli.dir_path a)
       :: Cli.actions (img ← Cli.render m platepar (Cli.ff_file a) config;
                       _ ← Cli.write (Cli.outfilename a) img;
                       Cli.emit (Cli.Print ["Wrote"; Cli.outfilename a])),
     Cli.ending (img ← Cli.render m platepar (Cli.ff_file a) config;
                 _ ← Cli.write (Cli.outfilename a) img;
                 Cli.emit (Cli.Print ["Wrote"; Cli.outfilename a]))).
Proof.
  intros (d & v & obj & Hd & Hv & Hobj & Hov & Hcfg).
  unfold Cli.main, Cli.json_load, Cli.load_config.
  rewrite Hd. simpl. rewrite Hv. simpl. rewrite Hobj. simpl.
  rewrite Hov. simpl. rewrite Hcfg. simpl.
  by destruct (Cli.render _ _ _ _ ≫= _).
Qed.

(** Otherwise it has stopped before, with nothing rendered or written. *)
Lemma main_inv m a :
  (exists platepar config, Cli.reaches_render m a platepar config) \/
  (exists e,
     Cli.main m a = ([Cli.Open (Cli.platepars_file a)], Cli.Failed e) \/
     Cli.main m a = ([Cli.Open (Cli.platepars_file a);
                      Cli.LoadConfig (Cli.config a) (Cli.dir_path a)],
                     Cli.Failed e)).
Proof.
  unfold Cli.main, Cli.json_load, Cli.load_config.
  destruct (Cli.documents m !! Cli.platepars_file a) as [[| d |] |] eqn:Hd;
    simpl; try (right; eexists; left; reflexivity).
  destruct (d !! PosixPath.basename (Cli.ff_file a)) as [v |] eqn:Hv;
    simpl; [| right; eexists; left; reflexivity].
  destruct (Cli.loadFromDict v) as [obj | e] eqn:Hobj;
    simpl; [| right; eexists; left; reflexivity].
  destruct (Cli.override_resolution a obj) as [platepar | e] eqn:Hov;
    simpl; [| right; eexists; left; reflexivity].
  destruct (Cli.loadConfigFromDirectory (Cli.config a) (Cli.dir_path a))
    as [config | e] eqn:Hcfg; simpl; [| right; eexists; right; reflexivity].
  left. exists platepar, config. by exists d, v, obj.
Qed.

(** From the rendering on. *)
Lemma main_tail m platepar ff config out :
  (img ← Cli.render m platepar ff config;
   _ ← Cli.write out img;
   Cli.emit (Cli.Print ["Wrote"; out]))
  = let evs := map Cli.Render (events (Cli.rendering m platepar ff config)) in
    match result (Cli.rendering m platepar ff config) with
    | Raises e => (evs, Cli.Failed (Cli.Raised e))
    | Returns img =>
        match Cli.imwrite out img with
        | Cli.Failed e => (evs ++ [Cli.Imwrite out img], Cli.Failed e)
        | Cli.Done _ =>
            (evs ++ [Cli.Imwrite out img; Cli.Print ["Wrote"; out]],
             Cli.Done tt)
        end
    end.
Proof.
  unfold Cli.render, Cli.write.
  destruct (Cli.rendering m platepar ff config) as [evs [img | e]];
    unfold events, result; simpl; [| done].
  by destruct (Cli.imwrite out img).
Qed.

(** The events of a call that returns. *)
Lemma returning_call_events `{C : Collaborators} w pp ff sep col cfg img :
  result (drawConstellations w pp ff sep col cfg) = Returns img ->
  exists jd from_ra from_dec to_ra to_dec,
    events (drawConstellations w pp ff sep col cfg)
    = [EvLoadtxt (constellations_path w);
       EvProject from_ra from_dec jd;
       EvProject to_ra to_dec jd].
Proof.
  rewrite drawConstellations_eq.
  destruct (blank_canvas pp) as [img0 | e]; [| discriminate].
  destruct (fftime_jd ff cfg) as [jd | e]; [| discriminate].
  destruct (result (load_lines w))
    as [[[[from_ra from_dec] to_ra] to_dec] | e]; [| discriminate].
  intros _. by exists jd, from_ra, from_dec, to_ra, to_dec.
Qed.

(** An image is handed to [cv2.imwrite] only under the output name and
    only after the rendering has returned it. *)
Lemma written_after_render m a p img :
  Cli.Imwrite p img ∈ Cli.actions (Cli.main m a) ->
  p = Cli.outfilename a /\
  exists platepar config,
    Cli.reaches_render m a platepar config /\
    result (Cli.rendering m platepar (Cli.ff_file a) config) = Returns img.
Proof.
  destruct (main_inv m a) as [(platepar & config & Hr) | (e & [-> | ->])].
  - rewrite (main_reaches _ _ _ _ Hr), main_tail. unfold Cli.actions.
    cbv zeta.
    destruct (result (Cli.rendering m platepar (Cli.ff_file a) config))
      as [img' | e] eqn:Hres; simpl.
    + intros Hin.
      assert (Cli.Imwrite p img = Cli.Imwrite (Cli.outfilename a) img') as Heq.
      { destruct (Cli.imwrite (Cli.outfilename a) img'); simpl in Hin;
          repeat (apply elem_of_cons in Hin as [Hin | Hin]; [discriminate |]);
          apply elem_of_app in Hin as [Hin | Hin];
          try (apply list_elem_of_fmap in Hin as (ev & Hev & _); discriminate);
          repeat (apply elem_of_cons in Hin as [Hin | Hin];
                  [first [exact Hin | discriminate] |]);
          by apply elem_of_nil in Hin. }
      injection Heq as -> ->. split; [done |]. by exists platepar, config.
    + intros Hin.
      repeat (apply elem_of_cons in Hin as [Hin | Hin]; [discriminate |]).
      apply list_elem_of_fmap in Hin as (ev & Hev & _). discriminate.
  - unfold Cli.actions. simpl. intros Hin.
    repeat (apply elem_of_cons in Hin as [Hin | Hin]; [discriminate |]).
    by apply elem_of_nil in Hin.
  - unfold Cli.actions. simpl. intros Hin.
    repeat (apply elem_of_cons in Hin as [Hin | Hin]; [discriminate |]).
    by apply elem_of_nil in Hin.
Qed.

(** With [-r] the plate that is rendered is the loaded one with both
    resolutions set to the integer, the scale halved and refraction off,
    after its distortion has been reset. *)
Lemma override_resolution_given a obj platepar r n :
  Cli.resolution a = Some r -> Cli.int_of_str r = Some n ->
  Cli.override_resolution a obj = Cli.Done platepar ->
  exists square,
    Cli.resetDistortionParameters square = Cli.Done platepar /\
    X_res (Cli.fields square) = n /\ Y_res (Cli.fields square) = n /\
    F_scale (Cli.fields square)
    = Float64.mul (F_scale (Cli.fields obj)) Cli.half /\
    Cli.refraction square = false.
Proof.
  unfold Cli.override_resolution, Cli.int. intros -> ->. simpl. intros H.
  eexists. split; [exact H |]. done.
Qed.

(** X12: a run of the script that ends normally has done exactly this, in
    this order: opened the platepars file, loaded the configuration, read
    the catalogue, projected the "from" and the "to" ends, handed the
    rendered image to [cv2.imwrite] under the output name and printed
    "Wrote" with that name.  The plate is the entry of the platepars file
    under the base name of the FF file. *)
Theorem X12_a_complete_run m a :
  Cli.ending (Cli.main m a) = Cli.Done tt ->
  exists platepar config img jd from_ra from_dec to_ra to_dec,
    Cli.reaches_render m a platepar config /\
    result (Cli.rendering m platepar (Cli.ff_file a) config) = Returns img /\
    Cli.actions (Cli.main m a)
    = [Cli.Open (Cli.platepars_file a);
       Cli.LoadConfig (Cli.config a) (Cli.dir_path a);
       Cli.Render (EvLoadtxt (constellations_path (Cli.renderer_world m)));
       Cli.Render (EvProject from_ra from_dec jd);
       Cli.Render (EvProject to_ra to_dec jd);
       Cli.Imwrite (Cli.outfilename a) img;
       Cli.Print ["Wrote"; Cli.outfilename a]].
Proof.
  destruct (main_inv m a) as [(platepar & config & Hr) | (e & [-> | ->])];
    [| discriminate | discriminate].
  rewrite (main_reaches _ _ _ _ Hr), main_tail. unfold Cli.ending, Cli.actions.
  cbv zeta.
  destruct (result (Cli.rendering m platepar (Cli.ff_file a) config))
    as [img | e] eqn:Hres; [| discriminate].
  destruct (returning_call_events (C := Cli.renderer_with platepar) _ _ _ _ _ _ _ Hres)
    as (jd & from_ra & from_dec & to_ra & to_dec & Hev).
  unfold Cli.rendering. rewrite Hev.
  destruct (Cli.imwrite (Cli.outfilename a) img) as [ok | e]; [| discriminate].
  intros _. by exists platepar, config, img, jd, from_ra, from_dec, to_ra, to_dec.
Qed.

(** X13: whatever the script hands to [cv2.imwrite], whether the run then
    ends normally or not, goes under the output name and is a canvas that
    the renderer returned for the plate of the FF file: it has the shape
    (Y_res, X_res, 4) of that plate. *)
Theorem X13_only_rendered_canvases_are_written m a p img :
  Cli.Imwrite p img ∈ Cli.actions (Cli.main m a) ->
  p = Cli.outfilename a /\
  exists platepar config,
    Cli.reaches_render m a platepar config /\
    result (Cli.rendering m platepar (Cli.ff_file a) config) = Returns img /\
    has_shape img (Z.to_nat (Y_res (Cli.fields platepar)))
                  (Z.to_nat (X_res (Cli.fields platepar))) 4.
Proof.
  intros (-> & platepar & config & Hr & Hres)%written_after_render.
  split; [done |]. exists platepar, config. repeat (split; [done |]).
  exact (returned_canvas_has_shape (C := Cli.renderer_with platepar) _ _ _ _ _ _ Hres).
Qed.

(** X14: the flag returned by [cv2.imwrite] is not looked at: when the
    image could not be written (the call returns false) the script still
    prints "Wrote" with the output name and ends normally. *)
Theorem X14_write_failure_goes_unnoticed m a platepar config img :
  Cli.reaches_render m a platepar config ->
  result (Cli.rendering m platepar (Cli.ff_file a) config) = Returns img ->
  Cli.imwrite (Cli.outfilename a) img = Cli.Done false ->
  Cli.ending (Cli.main m a) = Cli.Done tt /\
  last (Cli.actions (Cli.main m a))
  = Some (Cli.Print ["Wrote"; Cli.outfilename a]).
Proof.
  intros Hr Hres Hw.
  rewrite (main_reaches _ _ _ _ Hr), main_tail. unfold Cli.ending, Cli.actions.
  cbv zeta. rewrite Hres, Hw. split; [done |]. simpl.
  rewrite !app_comm_cons.
  change [Cli.Imwrite (Cli.outfilename a) img;
          Cli.Print ["Wrote"; Cli.outfilename a]]
    with ([Cli.Imwrite (Cli.outfilename a) img]
          ++ [Cli.Print ["Wrote"; Cli.outfilename a]]).
  rewrite app_assoc. apply last_snoc.
Qed.

(** X15: the plate is looked up under the base name of the FF file, the
    part of the path after its last slash: the path itself when it holds no
    slash, [name] for [dir/name].  For every FF path, when the platepars
    file has no entry under that name the script ends with [KeyError] right
    after opening the file; when the file holds something else than a JSON
    object, with [TypeError].  In both cases nothing is rendered or
    written. *)
Theorem X15_plate_missing m a :
  let key := PosixPath.basename (Cli.ff_file a) in
  (forall d,
     Cli.documents m !! Cli.platepars_file a = Some (Cli.Object d) ->
     d !! key = None ->
     Cli.main m a
     = ([Cli.Open (Cli.platepars_file a)], Cli.Failed (Cli.KeyError key))) /\
  (Cli.documents m !! Cli.platepars_file a = Some Cli.NotObject ->
   Cli.main m a = ([Cli.Open (Cli.platepars_file a)], Cli.Failed Cli.TypeError)) /\
  (forall name,
     no_slash name = true -> Cli.ff_file a = name -> key = name) /\
  (forall dir name,
     no_slash name = true -> Cli.ff_file a = in_directory dir name ->
     key = name).
Proof.
  intros key. unfold Cli.main, Cli.json_load. fold key.
  split; [| split; [| split]].
  - intros d -> Hd. simpl. by rewrite Hd.
  - by intros ->.
  - intros name Hn Hf. unfold key. rewrite Hf. by apply basename_no_slash.
  - intros dir name Hn Hf. unfold key. rewrite Hf.
    by apply basename_in_directory.
Qed.

(** X16: the resolution given with [-r].  A value that [int] rejects ends
    the script before the configuration is loaded.  An integer [n] makes
    the written image [n] by [n] by 4, provided resetting the distortion
    leaves the resolution of the plate alone; a negative [n] gets nothing
    written. *)
Theorem X16_resolution_override m a r :
  Cli.resolution a = Some r ->
  (Cli.int_of_str r = None ->
   exists e, Cli.main m a = ([Cli.Open (Cli.platepars_file a)], Cli.Failed e)) /\
  (forall n p img,
     Cli.int_of_str r = Some n ->
     (forall square platepar,
        Cli.resetDistortionParameters square = Cli.Done platepar ->
        X_res (Cli.fields platepar) = X_res (Cli.fields square) /\
        Y_res (Cli.fields platepar) = Y_res (Cli.fields square)) ->
     Cli.Imwrite p img ∈ Cli.actions (Cli.main m a) ->
     0 <= n /\ has_shape img (Z.to_nat n) (Z.to_nat n) 4).
Proof.
  intros Hres. split.
  - intros Hint.
    unfold Cli.main, Cli.json_load.
    destruct (Cli.documents m !! Cli.platepars_file a) as [[| d |] |];
      simpl; try (eexists; reflexivity).
    destruct (d !! PosixPath.basename (Cli.ff_file a)) as [v |];
      simpl; [| eexists; reflexivity].
    destruct (Cli.loadFromDict v) as [obj | e]; simpl; [| eexists; reflexivity].
    unfold Cli.override_resolution, Cli.int. rewrite Hres, Hint. simpl.
    eexists; reflexivity.
  - intros n p img Hint Hreset
      (-> & platepar & config & Hr & Hret)%written_after_render.
    destruct Hr as (d & v & obj & _ & _ & _ & Hov & _).
    destruct (override_resolution_given _ _ _ _ _ Hres Hint Hov)
      as (square & Hsq & HX & HY & _).
    destruct (Hreset _ _ Hsq) as [HX' HY']. rewrite HX in HX'. rewrite HY in HY'.
    pose proof (returned_canvas_has_shape (C := Cli.renderer_with platepar)
                  _ _ _ _ _ _ Hret) as Hs.
    rewrite HX', HY' in Hs. split; [| exact Hs].
    unfold Cli.rendering in Hret.
    apply drawConstellations_returns in Hret as (img0 & _ & _ & _ & _ & _ & Hc & _).
    unfold blank_canvas, zeros in Hc. rewrite HX', HY' in Hc.
    destruct (n <? 0) eqn:En; [discriminate | lia].
Qed.

End Script.

(** ** Further runs on the synthetic sky *)

Section Runs_more.

(** C2 as first stated fails on this run: the "from" ends of both segments
    lie within 90 degrees of the pointing centre, the "to" end of the second
    projects to NaN, and the call raises; it returns no canvas, so that
    neither segment is drawn. *)
Lemma C2_counterexample_passing_segments_not_drawn :
  from_within (C := Synthetic.collaborators) Synthetic.platepar
    default_separation_deg [of_Z 1; of_Z 5] [of_Z 2; of_Z 1] 0 = true /\
  from_within (C := Synthetic.collaborators) Synthetic.platepar
    default_separation_deg [of_Z 1; of_Z 5] [of_Z 2; of_Z 1] 1 = true /\
  result (load_lines (Synthetic.world Synthetic.nan_to_endpoint))
  = Returns ([of_Z 1; of_Z 5], [of_Z 2; of_Z 1],
             [of_Z 3; of_Z 120], [of_Z 4; of_Z 0]) /\
  forall img,
    result (drawConstellations (C := Synthetic.collaborators)
              (Synthetic.world Synthetic.nan_to_endpoint) Synthetic.platepar
              Synthetic.ff_file default_separation_deg None
              (Some Synthetic.config))
    <> Returns img.
Proof.
  split; [vm_compute; reflexivity |]. split; [vm_compute; reflexivity |].
  split; [vm_compute; reflexivity |].
  intros img. vm_compute. discriminate.
Qed.

(** C2, on a run: of the two segments of [far_segment] only the first has
    its "from" end within 90 degrees; its two end points are the only
    coloured pixels. *)
Lemma C2_witness_far_segment :
  result (drawConstellations (C := Synthetic.collaborators)
            (Synthetic.world Synthetic.far_segment) Synthetic.platepar
            Synthetic.ff_file default_separation_deg None (Some Synthetic.config))
  = Returns (draw_lines (C := Synthetic.collaborators) [255; 0; 0; 192]
               Synthetic.canvas [((1, 2), (3, 4))]) /\
  pixel (draw_lines (C := Synthetic.collaborators) [255; 0; 0; 192]
           Synthetic.canvas [((1, 2), (3, 4))]) 2 1 = Some [255; 0; 0; 192] /\
  pixel (draw_lines (C := Synthetic.collaborators) [255; 0; 0; 192]
           Synthetic.canvas [((1, 2), (3, 4))]) 1 5 = Some [0; 0; 0; 0].
Proof.
  assert (result (drawConstellations (C := Synthetic.collaborators)
                    (Synthetic.world Synthetic.far_segment) Synthetic.platepar
                    Synthetic.ff_file default_separation_deg None
                    (Some Synthetic.config))
          = Returns (draw_lines (C := Synthetic.collaborators) [255; 0; 0; 192]
                       Synthetic.canvas [((1, 2), (3, 4))])) as Hret
    by (vm_compute; reflexivity).
  split; [exact Hret |].
  destruct (C2_filter_reads_from_endpoint_only (C := Synthetic.collaborators)
              _ _ _ _ _ _ _ Hret)
    as (img0 & jd & from_ra & from_dec & to_ra & to_dec & ls
        & _ & Hjd & Hl & _ & Hls & _ & Hpx & _).
  injection Hjd as <-. injection Hl as <- <- <- <-.
  injection Hls as <-.
  split.
  - apply (Hpx 2%nat 1%nat); [vm_compute; lia | vm_compute; lia |].
    apply Exists_cons_hd. vm_compute. left.
  - apply (Hpx 1%nat 5%nat); [vm_compute; lia | vm_compute; lia |].
    intros Hon. apply Exists_cons in Hon as [Hon | Hon].
    + vm_compute in Hon.
      apply elem_of_cons in Hon as [[=] | Hon].
      apply elem_of_cons in Hon as [[=] | Hon].
      by apply elem_of_nil in Hon.
    + by apply Exists_nil in Hon.
Defined.

(** X1, on a run: the overlay of the two synthetic segments. *)
Lemma X1_witness_two_segments :
  Forall (Forall overlay_pixel) (Cli.overlay 6 8).
Proof.
  exact (X1_returned_canvas_has_two_colours (C := Synthetic.collaborators)
           (Synthetic.world Synthetic.two_segments) Synthetic.platepar
           Synthetic.ff_file default_separation_deg None (Some Synthetic.config)
           (Cli.overlay 6 8) ltac:(vm_compute; reflexivity)).
Defined.

(** X2, on a run. *)
Lemma X2_witness_two_segments :
  exists jd from_ra from_dec to_ra to_dec,
    fftime_jd (C := Synthetic.collaborators) Synthetic.ff_file
      (Some Synthetic.config) = Returns jd /\
    result (load_lines (Synthetic.world Synthetic.two_segments))
    = Returns (from_ra, from_dec, to_ra, to_dec) /\
    events (drawConstellations (C := Synthetic.collaborators)
              (Synthetic.world Synthetic.two_segments) Synthetic.platepar
              Synthetic.ff_file default_separation_deg None
              (Some Synthetic.config))
    = [EvLoadtxt (constellations_path (Synthetic.world Synthetic.two_segments));
       EvProject from_ra from_dec jd;
       EvProject to_ra to_dec jd].
Proof.
  exact (X2_two_projections_same_moment (C := Synthetic.collaborators)
           (Synthetic.world Synthetic.two_segments) Synthetic.platepar
           Synthetic.ff_file default_separation_deg None (Some Synthetic.config)
           (Cli.overlay 6 8) ltac:(vm_compute; reflexivity)).
Defined.

(** X3, on two runs: no catalogue file, and a catalogue whose second row
    is short. *)
Lemma X3_witness_no_catalog :
  drawConstellations (C := Synthetic.collaborators)
    no_catalog
    Synthetic.platepar Synthetic.ff_file default_separation_deg None
    (Some Synthetic.config)
  = ([EvLoadtxt Synthetic.catalog_path], Raises OSError) /\
  drawConstellations (C := Synthetic.collaborators)
    (Synthetic.world ragged)
    Synthetic.platepar Synthetic.ff_file default_separation_deg None
    (Some Synthetic.config)
  = ([EvLoadtxt Synthetic.catalog_path], Raises ValueError).
Proof.
  split.
  - exact (proj1 (X3_unreadable_catalog (C := Synthetic.collaborators)
                    no_catalog
                    Synthetic.platepar Synthetic.ff_file default_separation_deg
                    None (Some Synthetic.config) Synthetic.canvas
                    Synthetic.capture eq_refl eq_refl)
             ltac:(vm_compute; reflexivity)).
  - exact (proj2 (X3_unreadable_catalog (C := Synthetic.collaborators)
                    (Synthetic.world ragged)
                    Synthetic.platepar Synthetic.ff_file default_separation_deg
                    None (Some Synthetic.config) Synthetic.canvas
                    Synthetic.capture eq_refl eq_refl)
             ragged [of_Z 1; of_Z 2; of_Z 3; of_Z 4] [[of_Z 5; of_Z 1]]
             ltac:(vm_compute; reflexivity) eq_refl eq_refl).
Defined.

(** X4, on a run: a plate of width -1. *)
Lemma X4_witness_negative_width :
  drawConstellations (C := Synthetic.collaborators)
    (Synthetic.world Synthetic.two_segments)
    negative_width
    Synthetic.ff_file default_separation_deg None (Some Synthetic.config)
  = ([], Raises ValueError).
Proof.
  exact (X4_negative_resolution (C := Synthetic.collaborators)
           (Synthetic.world Synthetic.two_segments)
           negative_width
           Synthetic.ff_file default_separation_deg None (Some Synthetic.config)
           (or_introl eq_refl)).
Defined.

(** X5, on a run: a catalogue with five fields per row. *)
Lemma X5_witness_five_fields :
  drawConstellations (C := Synthetic.collaborators)
    (with_catalog
       (Synthetic.world five_fields)
       (map (take 4) five_fields))
    Synthetic.platepar Synthetic.ff_file default_separation_deg None
    (Some Synthetic.config)
  = drawConstellations (C := Synthetic.collaborators)
      (Synthetic.world five_fields)
      Synthetic.platepar Synthetic.ff_file default_separation_deg None
      (Some Synthetic.config).
Proof.
  exact (X5_fields_beyond_the_fourth_ignored (C := Synthetic.collaborators)
           (Synthetic.world five_fields)
           Synthetic.platepar Synthetic.ff_file default_separation_deg None
           (Some Synthetic.config)
           five_fields 5%nat
           ltac:(vm_compute; reflexivity) ltac:(lia)
           ltac:(repeat constructor)).
Defined.

(** X6, on a run: thresholds of 2 and of 90 degrees; the first draws one
    of the two segments, the second both. *)
Lemma X6_witness_2_and_90_degrees :
  exists img1,
    result (drawConstellations (C := Synthetic.collaborators)
              (Synthetic.world Synthetic.two_segments) Synthetic.platepar
              Synthetic.ff_file (of_Z 2) None (Some Synthetic.config))
    = Returns img1 /\
    forall y x,
      pixel img1 y x = Some [255; 0; 0; 192] ->
      pixel (Cli.overlay 6 8) y x = Some [255; 0; 0; 192].
Proof.
  exact (X6_raising_the_threshold_only_adds_lines (C := Synthetic.collaborators)
           (Synthetic.world Synthetic.two_segments) Synthetic.platepar
           Synthetic.ff_file (of_Z 2) default_separation_deg None
           (Some Synthetic.config) (Cli.overlay 6 8)
           eq_refl ltac:(vm_compute; reflexivity)).
Defined.

(** X7, on a run: the FF file with and without its directory. *)
Lemma X7_witness_data_directory :
  drawConstellations (C := Synthetic.collaborators)
    (Synthetic.world Synthetic.two_segments) Synthetic.platepar
    "/data/FF_XX0001_20200101_000000_000_0000000.fits"
    default_separation_deg None (Some Synthetic.config)
  = drawConstellations (C := Synthetic.collaborators)
      (Synthetic.world Synthetic.two_segments) Synthetic.platepar
      "FF_XX0001_20200101_000000_000_0000000.fits"
      default_separation_deg None (Some Synthetic.config).
Proof.
  exact (X7_only_the_base_name_of_the_ff_file (C := Synthetic.collaborators)
           (Synthetic.world Synthetic.two_segments) Synthetic.platepar
           default_separation_deg None (Some Synthetic.config)
           "/data" "FF_XX0001_20200101_000000_000_0000000.fits" eq_refl).
Defined.

(** X8, on two machines. *)
Lemma X8_witness_module_paths :
  constellations_path (Synthetic.world Synthetic.two_segments)
  = "/opt/RMS/Utils/../share/constellation_lines.csv" /\
  constellations_path bare_module
  = "../share/constellation_lines.csv".
Proof.
  split.
  - exact (proj2 (X8_catalog_beside_the_module
                    (Synthetic.world Synthetic.two_segments)
                    "/opt/RMS/Utils" "DrawConstellations.py" eq_refl)
             eq_refl eq_refl eq_refl).
  - exact (proj1 (X8_catalog_beside_the_module
                    bare_module
                    "" "DrawConstellations.py" eq_refl)
             eq_refl).
Defined.

(** X9, on a run: the pixel of row 2, column 1. *)
Lemma X9_witness_pixel_1_2 :
  exists jd from_ra from_dec to_ra to_dec ls,
    fftime_jd (C := Synthetic.collaborators) Synthetic.ff_file
      (Some Synthetic.config) = Returns jd /\
    result (load_lines (Synthetic.world Synthetic.two_segments))
    = Returns (from_ra, from_dec, to_ra, to_dec) /\
    mapM (end_points_at (arrays_of (C := Synthetic.collaborators)
                           Synthetic.platepar jd from_ra from_dec to_ra to_dec))
      (List.filter (from_within (C := Synthetic.collaborators) Synthetic.platepar
                      default_separation_deg from_ra from_dec)
         (seq 0 (length (fst (raDecToXYPP (Collaborators := Synthetic.collaborators)
                                to_ra to_dec jd Synthetic.platepar)))))
    = Returns ls /\
    let extent := (Z.to_nat (Y_res Synthetic.platepar),
                   Z.to_nat (X_res Synthetic.platepar)) in
    (on_segments (C := Synthetic.collaborators) extent ls 2 1 ->
     pixel (Cli.overlay 6 8) 2 1 = Some [255; 0; 0; 192]) /\
    (~ on_segments (C := Synthetic.collaborators) extent ls 2 1 ->
     pixel (Cli.overlay 6 8) 2 1 = Some [0; 0; 0; 0]).
Proof.
  exact (X9_pixels_of_the_returned_canvas (C := Synthetic.collaborators)
           (Synthetic.world Synthetic.two_segments) Synthetic.platepar
           Synthetic.ff_file default_separation_deg None (Some Synthetic.config)
           (Cli.overlay 6 8) 2%nat 1%nat
           ltac:(vm_compute; reflexivity) ltac:(vm_compute; lia)
           ltac:(vm_compute; lia)).
Defined.

(** X10, on a run: the two synthetic rows, swapped. *)
Lemma X10_witness_swapped_rows :
  result (drawConstellations (C := Synthetic.collaborators)
            (with_catalog (Synthetic.world Synthetic.two_segments)
               two_segments_swapped)
            Synthetic.platepar Synthetic.ff_file default_separation_deg None
            (Some Synthetic.config))
  = Returns (Cli.overlay 6 8).
Proof.
  exact (X10_row_order_does_not_matter (C := Synthetic.collaborators)
           (Synthetic.world Synthetic.two_segments) Synthetic.platepar
           Synthetic.ff_file default_separation_deg None (Some Synthetic.config)
           Synthetic.two_segments two_segments_swapped 4%nat
           (fun ra dec _ _ => Synthetic.project_point ra dec)
           (Cli.overlay 6 8)
           ltac:(vm_compute; reflexivity) ltac:(lia) ltac:(repeat constructor)
           ltac:(apply perm_swap) (fun _ _ _ _ => eq_refl)
           ltac:(vm_compute; reflexivity)).
Defined.

(** X11, on two names: the stem of the synthetic FF file ends in a digit,
    the stem of [FF_test.fits] in a [t]. *)
Lemma X11_witness_ff_names :
  Cli.outfilename Cli.args
  = "/data/FF_XX0001_20200101_000000_000_0000000_constellations.png" /\
  Cli.outfilename Cli.args_test = "FF_te_constellations.png" /\
  Cli.outfilename Cli.args_test <> "FF_test_constellations.png".
Proof.
  split; [| split].
  - exact (proj1 (proj2 (X11_default_output_name Cli.args
                           "/data/FF_XX0001_20200101_000000_000_0000000"
                           eq_refl eq_refl)) eq_refl).
  - exact (proj1 (X11_default_output_name Cli.args_test "FF_test"
                    eq_refl eq_refl)).
  - exact (proj2 (proj2 (X11_default_output_name Cli.args_test "FF_test"
                           eq_refl eq_refl)) eq_refl).
Defined.

(** The synthetic command lines get as far as the rendering. *)
Lemma synthetic_reaches_render (a : Cli.Args) (platepar : Cli.PlateparObject unit) :
  Cli.platepars_file a = "/data/platepars_all_recalibrated.json" ->
  PosixPath.basename (Cli.ff_file a) = Cli.ff_name ->
  Cli.override_resolution (E := Cli.externals) a
    {| Cli.fields := Synthetic.platepar; Cli.refraction := true; Cli.rest := tt |}
  = Cli.Done platepar ->
  Cli.reaches_render (E := Cli.externals) Cli.machine a platepar Synthetic.config.
Proof.
  intros Hp Hf Ho.
  exists Cli.platepars, Synthetic.platepar,
    {| Cli.fields := Synthetic.platepar; Cli.refraction := true; Cli.rest := tt |}.
  rewrite Hp, Hf.
  split; [vm_compute; reflexivity |]. split; [vm_compute; reflexivity |].
  split; [reflexivity |]. split; [exact Ho | reflexivity].
Defined.

(** X12, on a run of the synthetic command line. *)
Lemma X12_witness_complete_run :
  exists platepar config img jd from_ra from_dec to_ra to_dec,
    Cli.reaches_render (E := Cli.externals) Cli.machine Cli.args platepar config /\
    result (Cli.rendering Cli.machine platepar (Cli.ff_file Cli.args) config)
    = Returns img /\
    Cli.actions (Cli.main (E := Cli.externals) Cli.machine Cli.args)
    = [Cli.Open (Cli.platepars_file Cli.args);
       Cli.LoadConfig (Cli.config Cli.args) (Cli.dir_path Cli.args);
       Cli.Render (EvLoadtxt (constellations_path (Cli.renderer_world Cli.machine)));
       Cli.Render (EvProject from_ra from_dec jd);
       Cli.Render (EvProject to_ra to_dec jd);
       Cli.Imwrite (Cli.outfilename Cli.args) img;
       Cli.Print ["Wrote"; Cli.outfilename Cli.args]].
Proof.
  exact (X12_a_complete_run (E := Cli.externals) Cli.machine Cli.args
           ltac:(vm_compute; reflexivity)).
Defined.

(** X13, on a run: the image handed to [cv2.imwrite]. *)
Lemma X13_witness_written_overlay :
  Cli.Imwrite "/data/FF_XX0001_20200101_000000_000_0000000_constellations.png"
    (Cli.overlay 6 8)
  ∈ Cli.actions (Cli.main (E := Cli.externals) Cli.machine Cli.args) /\
  "/data/FF_XX0001_20200101_000000_000_0000000_constellations.png"
  = Cli.outfilename Cli.args /\
  exists platepar config,
    Cli.reaches_render (E := Cli.externals) Cli.machine Cli.args platepar config /\
    result (Cli.rendering Cli.machine platepar (Cli.ff_file Cli.args) config)
    = Returns (Cli.overlay 6 8) /\
    has_shape (Cli.overlay 6 8)
      (Z.to_nat (Y_res (Cli.fields platepar)))
      (Z.to_nat (X_res (Cli.fields platepar))) 4.
Proof.
  assert (Cli.Imwrite
            "/data/FF_XX0001_20200101_000000_000_0000000_constellations.png"
            (Cli.overlay 6 8)
          ∈ Cli.actions (Cli.main (E := Cli.externals) Cli.machine Cli.args)) as H.
  { apply (list_elem_of_lookup_2 _ 5%nat). vm_compute. reflexivity. }
  split; [exact H |].
  exact (X13_only_rendered_canvases_are_written (E := Cli.externals)
           Cli.machine Cli.args _ _ H).
Defined.

(** X14, on a run: an output below [/readonly]. *)
Lemma X14_witness_readonly_output :
  Cli.imwrite (Externals := Cli.externals)
    (Cli.outfilename Cli.args_readonly) (Cli.overlay 6 8) = Cli.Done false /\
  Cli.ending (Cli.main (E := Cli.externals) Cli.machine Cli.args_readonly)
  = Cli.Done tt /\
  last (Cli.actions (Cli.main (E := Cli.externals) Cli.machine Cli.args_readonly))
  = Some (Cli.Print ["Wrote"; Cli.outfilename Cli.args_readonly]).
Proof.
  split; [reflexivity |].
  exact (X14_write_failure_goes_unnoticed (E := Cli.externals)
           Cli.machine Cli.args_readonly
           {| Cli.fields := Synthetic.platepar; Cli.refraction := true;
              Cli.rest := tt |}
           Synthetic.config (Cli.overlay 6 8)
           (synthetic_reaches_render Cli.args_readonly _ eq_refl eq_refl eq_refl)
           ltac:(vm_compute; reflexivity) eq_refl).
Defined.

(** X15, on three runs: an FF file without plate given with its directory,
    one given by its bare name, and a platepars file that holds an array. *)
Lemma X15_witness_unknown_ff_file :
  Cli.main (E := Cli.externals) Cli.machine Cli.args_unknown
  = ([Cli.Open "/data/platepars_all_recalibrated.json"],
     Cli.Failed (Cli.KeyError "FF_XX0001_20200101_010000_000_0000000.fits")) /\
  Cli.main (E := Cli.externals) Cli.machine Cli.args_test
  = ([Cli.Open "/data/platepars_all_recalibrated.json"],
     Cli.Failed (Cli.KeyError "FF_test.fits")) /\
  Cli.main (E := Cli.externals) Cli.machine Cli.args_list
  = ([Cli.Open "/data/list.json"], Cli.Failed Cli.TypeError).
Proof.
  split; [| split].
  - pose proof (X15_plate_missing (E := Cli.externals) Cli.machine
                  Cli.args_unknown) as (H & _ & _ & Hkey).
    rewrite (Hkey "/data" "FF_XX0001_20200101_010000_000_0000000.fits"
               eq_refl eq_refl) in H.
    apply (H Cli.platepars); vm_compute; reflexivity.
  - pose proof (X15_plate_missing (E := Cli.externals) Cli.machine
                  Cli.args_test) as (H & _ & Hkey & _).
    rewrite (Hkey "FF_test.fits" eq_refl eq_refl) in H.
    apply (H Cli.platepars); vm_compute; reflexivity.
  - pose proof (X15_plate_missing (E := Cli.externals) Cli.machine
                  Cli.args_list) as (_ & H & _).
    apply H. vm_compute. reflexivity.
Defined.

(** X16, on two runs: [-r 4k] and [-r 4]. *)
Lemma X16_witness_resolution_4 :
  (exists e,
     Cli.main (E := Cli.externals) Cli.machine (Cli.args_resolution "4k")
     = ([Cli.Open "/data/platepars_all_recalibrated.json"], Cli.Failed e)) /\
  Cli.Imwrite "/data/FF_XX0001_20200101_000000_000_0000000_constellations.png"
    (Cli.overlay 4 4)
  ∈ Cli.actions (Cli.main (E := Cli.externals) Cli.machine
                   (Cli.args_resolution "4")) /\
  0 <= 4 /\ has_shape (Cli.overlay 4 4) 4 4 4.
Proof.
  split.
  - exact (proj1 (X16_resolution_override (E := Cli.externals) Cli.machine
                    (Cli.args_resolution "4k") "4k" eq_refl) eq_refl).
  - assert (Cli.Imwrite
              "/data/FF_XX0001_20200101_000000_000_0000000_constellations.png"
              (Cli.overlay 4 4)
            ∈ Cli.actions (Cli.main (E := Cli.externals) Cli.machine
                             (Cli.args_resolution "4"))) as H.
    { apply (list_elem_of_lookup_2 _ 5%nat). vm_compute. reflexivity. }
    split; [exact H |].
    refine (proj2 (X16_resolution_override (E := Cli.externals) Cli.machine
                     (Cli.args_resolution "4") "4" eq_refl)
              4 _ _ eq_refl _ H).
    intros square platepar [= <-]. done.
Defined.

End Runs_more.
